(** * Share links of PowerBrief: issuing and resolving

    A shallow embedding of the share-link code of the repository:

    - [shareBriefBatch] and [shareBriefConcept]
      (the PowerBrief service module, second half of
      [src/lib/types/powerbrief.ts]), which mint a share identifier and
      write a settings record into the [share_settings] column of a
      batch or a concept;
    - [fetchSharedBatch] (the effect of [SharedBriefPage],
      [src/app/public/brief/[shareId]/page.tsx]) and [fetchSharedConcept]
      (the effect of [SharedConceptPage]), which look the identifier up
      again and decide what the public page shows.

    The hosted backend is an external collaborator.  It is modelled by a
    [World] holding the three tables the code touches and a log of the
    requests the client issued; the three query shapes the code uses are
    given their PostgREST meaning.  Everything the code takes from its
    environment (the random identifier, the clock, the page origin, and
    whether a backend call or the invitation request fails) is an explicit
    argument. *)

From stdpp Require Import gmap strings list fin_maps.
From Stdlib Require Import Ascii Sorted Permutation.

Open Scope string_scope.

(** ** JavaScript values read through [any] *)

(** The JSON values a field of a stored settings record may hold when the
    reader treats the record as [any].  Numbers are restricted to
    integers. *)
Inductive JsVal :=
| JUndefined
| JNull
| JBool (b : bool)
| JNum (n : Z)
| JStr (s : string).

(** ToBoolean. *)
Definition truthy (v : JsVal) : bool :=
  match v with
  | JUndefined | JNull => false
  | JBool b => b
  | JNum n => negb (n =? 0)%Z
  | JStr s => negb (String.eqb s "")
  end.

(** ToBoolean of a [string | null | undefined]. *)
Definition truthy_string (o : option string) : bool :=
  match o with
  | Some s => negb (String.eqb s "")
  | None => false
  end.

(** A [Date] object, by its time value: milliseconds since the epoch, or
    NaN for an Invalid Date. *)
Inductive JsDate :=
| ValidDate (ms : Z)
| InvalidDate.

(** [a < b] on two dates: both are converted to their time values, and any
    comparison with NaN is false. *)
Definition date_lt (a b : JsDate) : bool :=
  match a, b with
  | ValidDate x, ValidDate y => (x <? y)%Z
  | _, _ => false
  end.

(** The [expires_at] field, [string | null] and possibly missing.  A
    non-empty string is represented by the [Date] that [new Date(s)]
    constructs from it; an ISO timestamp denotes [ValidDate t]. *)
Inductive ExpiresAt :=
| exp_undefined
| exp_null
| exp_empty
| exp_date (d : JsDate).

(** ToBoolean of the field: only a non-empty string is truthy. *)
Definition exp_truthy (e : ExpiresAt) : bool :=
  match e with
  | exp_date _ => true
  | _ => false
  end.

(** [new Date(shareSettings.expires_at)], evaluated only when the field is
    truthy. *)
Definition exp_Date (e : ExpiresAt) : JsDate :=
  match e with
  | exp_date d => d
  | _ => InvalidDate
  end.

(** ** Data model ([src/lib/types/powerbrief.ts]) *)

Module ShareType.
Inductive t := link | email.

Definition is_email (s : t) : bool :=
  match s with email => true | link => false end.
End ShareType.

(** [ShareSettings], together with the two fields the issuer adds when it
    stores the record ([created_at], [share_type]); these are [None] in a
    record passed by a caller. *)
Record ShareSettings := {
  is_editable : JsVal;
  expires_at : ExpiresAt;
  email : option string;
  created_at : option Z;
  share_type : option ShareType.t
}.

Record ShareResult := {
  share_id : string;
  share_url : string
}.

Module Brand.
Record t := {
  id : string;
  user_id : string;
  name : string
}.
End Brand.

(** The columns of [brief_batches] that the sharing code reads or writes. *)
Module BriefBatch.
Record t := {
  id : string;
  name : string;
  brand_id : string;
  user_id : string;
  status : option string;
  share_settings : option (gmap string ShareSettings)
}.

Definition with_share_settings
    (m : option (gmap string ShareSettings)) (r : t) : t :=
  {| id := id r; name := name r; brand_id := brand_id r;
     user_id := user_id r; status := status r; share_settings := m |}.
End BriefBatch.

(** The columns of [brief_concepts] that the sharing code reads or writes. *)
Module BriefConcept.
Record t := {
  id : string;
  brief_batch_id : string;
  concept_title : string;
  order_in_batch : Z;
  status : option string;
  share_settings : option (gmap string ShareSettings)
}.

Definition with_share_settings
    (m : option (gmap string ShareSettings)) (r : t) : t :=
  {| id := id r; brief_batch_id := brief_batch_id r;
     concept_title := concept_title r; order_in_batch := order_in_batch r;
     status := status r; share_settings := m |}.
End BriefConcept.

(** A batch as returned by [select('*, brands( * )')]: the row with its
    brand embedded ([ExtendedBriefBatch]). *)
Record ExtendedBriefBatch := {
  row : BriefBatch.t;
  brands_of : option Brand.t
}.

(** ** The backend *)

Inductive Request :=
| Select (table : string)
| Update (table : string)
| Post (url : string).

Definition is_select (r : Request) : bool :=
  match r with Select _ => true | _ => false end.

Record World := {
  brands : list Brand.t;
  brief_batches : list BriefBatch.t;
  brief_concepts : list BriefConcept.t;
  requests : list Request
}.

Definition log (q : Request) (w : World) : World :=
  {| brands := brands w; brief_batches := brief_batches w;
     brief_concepts := brief_concepts w; requests := requests w ++ [q] |}.

(** The [{ data, error }] pair every query resolves to.  [fault] is what
    the backend answers with when the request does not go through. *)
Module Postgrest.
Record Error := { message : string }.

Record Response (A : Type) := {
  data : option A;
  error : option Error
}.
Arguments data {A} _.
Arguments error {A} _.

Definition respond {A : Type} (fault : option Error) (rows : A)
  : Response A :=
  match fault with
  | Some e => {| data := None; error := Some e |}
  | None => {| data := Some rows; error := None |}
  end.
End Postgrest.

(** [share_settings @> { [shareId]: {} }]: the column is an object that has
    [shareId] as a key, bound to an object. *)
Definition contains_share (shareId : string)
    (m : option (gmap string ShareSettings)) : bool :=
  match m with
  | Some s => bool_decide (is_Some (s !! shareId))
  | None => false
  end.

(** [share_settings?.[shareId]] *)
Definition share_settings_at (shareId : string)
    (m : option (gmap string ShareSettings)) : option ShareSettings :=
  match m with
  | Some s => s !! shareId
  | None => None
  end.

Definition join_brand (bs : list Brand.t) (b : BriefBatch.t)
  : ExtendedBriefBatch :=
  {| row := b;
     brands_of :=
       List.find (fun x => String.eqb (Brand.id x) (BriefBatch.brand_id b)) bs |}.

(** The rows of [brief_batches] that satisfy
    [contains('share_settings', { [shareId]: {} })], in table order. *)
Definition batches_containing (shareId : string) (w : World)
  : list BriefBatch.t :=
  List.filter (fun b => contains_share shareId (BriefBatch.share_settings b))
    (brief_batches w).

(** The rows of [brief_concepts] that satisfy the same filter. *)
Definition concepts_containing (shareId : string) (w : World)
  : list BriefConcept.t :=
  List.filter (fun c => contains_share shareId (BriefConcept.share_settings c))
    (brief_concepts w).

(** [from('brief_batches').select('*, brands( * )')
      .contains('share_settings', { [shareId]: {} })] *)
Definition select_batches_containing (shareId : string)
    (fault : option Postgrest.Error) (w : World)
  : Postgrest.Response (list ExtendedBriefBatch) * World :=
  (Postgrest.respond fault
     (List.map (join_brand (brands w)) (batches_containing shareId w)),
   log (Select "brief_batches") w).

(** [from('brief_concepts').select('*')
      .contains('share_settings', { [shareId]: {} })] *)
Definition select_concepts_containing (shareId : string)
    (fault : option Postgrest.Error) (w : World)
  : Postgrest.Response (list BriefConcept.t) * World :=
  (Postgrest.respond fault (concepts_containing shareId w),
   log (Select "brief_concepts") w).

Fixpoint insert_by_order (c : BriefConcept.t) (l : list BriefConcept.t)
  : list BriefConcept.t :=
  match l with
  | [] => [c]
  | d :: l' =>
      if (BriefConcept.order_in_batch c <=? BriefConcept.order_in_batch d)%Z
      then c :: d :: l'
      else d :: insert_by_order c l'
  end.

(** [order('order_in_batch', { ascending: true })] *)
Definition order_ascending (l : list BriefConcept.t) : list BriefConcept.t :=
  List.fold_right insert_by_order [] l.

(** [from('brief_concepts').select('*').eq('brief_batch_id', batchId)
      .order('order_in_batch', { ascending: true })] *)
Definition select_concepts_of_batch (batchId : string)
    (fault : option Postgrest.Error) (w : World)
  : Postgrest.Response (list BriefConcept.t) * World :=
  (Postgrest.respond fault
     (order_ascending
        (List.filter
           (fun c => String.eqb (BriefConcept.brief_batch_id c) batchId)
           (brief_concepts w))),
   log (Select "brief_concepts") w).

(** [from('brief_batches').update({ share_settings: payload })
      .eq('id', batchId).select()]: in every row whose [id] is [batchId]
    the column [share_settings] is replaced by [payload]; the rows that
    were updated are returned.  No matching row is not an error. *)
Definition update_batch_share_settings (payload : gmap string ShareSettings)
    (batchId : string) (fault : option Postgrest.Error) (w : World)
  : Postgrest.Response (list BriefBatch.t) * World :=
  let hit b := String.eqb (BriefBatch.id b) batchId in
  let put b :=
    if hit b then BriefBatch.with_share_settings (Some payload) b else b in
  (Postgrest.respond fault (List.map put (List.filter hit (brief_batches w))),
   log (Update "brief_batches")
     match fault with
     | Some _ => w
     | None =>
         {| brands := brands w;
            brief_batches := List.map put (brief_batches w);
            brief_concepts := brief_concepts w;
            requests := requests w |}
     end).

(** The same request against [brief_concepts]. *)
Definition update_concept_share_settings (payload : gmap string ShareSettings)
    (conceptId : string) (fault : option Postgrest.Error) (w : World)
  : Postgrest.Response (list BriefConcept.t) * World :=
  let hit c := String.eqb (BriefConcept.id c) conceptId in
  let put c :=
    if hit c then BriefConcept.with_share_settings (Some payload) c else c in
  (Postgrest.respond fault (List.map put (List.filter hit (brief_concepts w))),
   log (Update "brief_concepts")
     match fault with
     | Some _ => w
     | None =>
         {| brands := brands w;
            brief_batches := brief_batches w;
            brief_concepts := List.map put (brief_concepts w);
            requests := requests w |}
     end).

(** [fetch('/api/share/send-invitation', { method: 'POST', ... })]: the
    promise resolves with a response of any status, or rejects. *)
Inductive FetchOutcome :=
| fetch_resolves (http_status : Z)
| fetch_rejects (reason : string).

(** A call either returns a value or throws an [Error] with a message. *)
Inductive Completion (A : Type) :=
| Returns (a : A)
| Throws (msg : string).
Arguments Returns {A} _.
Arguments Throws {A} _.

Definition post_invitation (o : FetchOutcome) (w : World)
  : Completion unit * World :=
  (match o with
   | fetch_resolves _ => Returns tt
   | fetch_rejects reason => Throws reason
   end,
   log (Post "/api/share/send-invitation") w).

(** What one call takes from its surroundings. *)
Record Env := {
  origin : string;                         (* window.location.origin *)
  randomUUID : string;                     (* crypto.randomUUID() *)
  now : Z;                                 (* new Date() *)
  update_fault : option Postgrest.Error;   (* outcome of the update *)
  select_fault : option Postgrest.Error;   (* outcome of the containment query *)
  concepts_fault : option Postgrest.Error; (* outcome of the concepts query *)
  invitation : FetchOutcome                (* outcome of the invitation request *)
}.

(** ** Share Issuer *)

(** [{ ...shareSettings, created_at: new Date().toISOString(),
       share_type: shareType }] *)
Definition settings_record (env : Env) (shareType : ShareType.t)
    (shareSettings : ShareSettings) : ShareSettings :=
  {| is_editable := is_editable shareSettings;
     expires_at := expires_at shareSettings;
     email := email shareSettings;
     created_at := Some (now env);
     share_type := Some shareType |}.

(** The invitation step shared by both issuers: attempted only for an
    email share with a truthy address; a rejection is caught and logged. *)
Definition send_invitation (env : Env) (shareType : ShareType.t)
    (shareSettings : ShareSettings) (w : World) : World :=
  if ShareType.is_email shareType && truthy_string (email shareSettings)
  then
    match post_invitation (invitation env) w with
    | (Returns _, w') => w'
    | (Throws _, w') => w'
    end
  else w.

Definition shareBriefBatch (env : Env) (batchId : string)
    (shareType : ShareType.t) (shareSettings : ShareSettings) (w : World)
  : Completion ShareResult * World :=
  let shareId := randomUUID env in
  let shareUrl := origin env +:+ "/public/brief/" +:+ shareId in
  let '(resp, w1) :=
    update_batch_share_settings
      {[ shareId := settings_record env shareType shareSettings ]}
      batchId (update_fault env) w in
  match Postgrest.error resp with
  | Some error =>
      (Throws ("Failed to share brief batch: " +:+ Postgrest.message error), w1)
  | None =>
      (Returns {| share_id := shareId; share_url := shareUrl |},
       send_invitation env shareType shareSettings w1)
  end.

Definition shareBriefConcept (env : Env) (conceptId : string)
    (shareType : ShareType.t) (shareSettings : ShareSettings) (w : World)
  : Completion ShareResult * World :=
  let shareId := randomUUID env in
  let shareUrl := origin env +:+ "/public/concept/" +:+ shareId in
  let '(resp, w1) :=
    update_concept_share_settings
      {[ shareId := settings_record env shareType shareSettings ]}
      conceptId (update_fault env) w in
  match Postgrest.error resp with
  | Some error =>
      (Throws ("Failed to share brief concept: " +:+ Postgrest.message error), w1)
  | None =>
      (Returns {| share_id := shareId; share_url := shareUrl |},
       send_invitation env shareType shareSettings w1)
  end.

(** ** Share Resolver *)

(** [err.message || 'Failed to load shared content'] *)
Definition catch_message (err : Postgrest.Error) : string :=
  if String.eqb (Postgrest.message err) ""
  then "Failed to load shared content"
  else Postgrest.message err.

(** [shareSettings.expires_at &&
     new Date(shareSettings.expires_at) < new Date()] *)
Definition has_expired (env : Env) (shareSettings : ShareSettings) : bool :=
  exp_truthy (expires_at shareSettings)
  && date_lt (exp_Date (expires_at shareSettings)) (ValidDate (now env)).

Inductive View :=
| Spinner
| AlertView (text : string)
| Content.

Module SharedBriefPage.
Record state := {
  loading : bool;
  error : option string;
  brand : option Brand.t;
  batch : option ExtendedBriefBatch;
  concepts : list BriefConcept.t;
  isEditable : bool
}.

(** The [useState] initial values. *)
Definition initial : state :=
  {| loading := true; error := None; brand := None; batch := None;
     concepts := []; isEditable := false |}.

Definition setLoading (b : bool) (p : state) : state :=
  {| loading := b; error := error p; brand := brand p; batch := batch p;
     concepts := concepts p; isEditable := isEditable p |}.
Definition setError (e : string) (p : state) : state :=
  {| loading := loading p; error := Some e; brand := brand p;
     batch := batch p; concepts := concepts p; isEditable := isEditable p |}.
Definition setBrand (b : Brand.t) (p : state) : state :=
  {| loading := loading p; error := error p; brand := Some b;
     batch := batch p; concepts := concepts p; isEditable := isEditable p |}.
Definition setBatch (b : ExtendedBriefBatch) (p : state) : state :=
  {| loading := loading p; error := error p; brand := brand p;
     batch := Some b; concepts := concepts p; isEditable := isEditable p |}.
Definition setConcepts (l : list BriefConcept.t) (p : state) : state :=
  {| loading := loading p; error := error p; brand := brand p;
     batch := batch p; concepts := l; isEditable := isEditable p |}.
Definition setIsEditable (b : bool) (p : state) : state :=
  {| loading := loading p; error := error p; brand := brand p;
     batch := batch p; concepts := concepts p; isEditable := b |}.

(** The part of [fetchSharedBatch] that runs once the containment query
    has answered without an error: [batchData] is its [data]. *)
Definition after_query (env : Env) (shareId : string)
    (batchData : option (list ExtendedBriefBatch)) (w : World) (p : state)
  : World * state :=
  match batchData with
  | None | Some [] =>
      (w, setLoading false
            (setLoading false
               (setError "Shared content not found or has expired" p)))
  | Some (batchWithShare :: _) =>
      match share_settings_at shareId
              (BriefBatch.share_settings (row batchWithShare)) with
      | None =>
          (w, setLoading false
                (setLoading false (setError "Share settings not found" p)))
      | Some shareSettings =>
          if has_expired env shareSettings
          then
            (w, setLoading false
                  (setLoading false
                     (setError "This shared link has expired" p)))
          else
            let p := setIsEditable (truthy (is_editable shareSettings)) p in
            let p :=
              match brands_of batchWithShare with
              | Some brandData => setBrand brandData p
              | None => p
              end in
            let p := setBatch batchWithShare p in
            let '(resp, w) :=
              select_concepts_of_batch (BriefBatch.id (row batchWithShare))
                (concepts_fault env) w in
            match Postgrest.error resp with
            | Some conceptsError =>
                (w, setLoading false
                      (setError (catch_message conceptsError) p))
            | None =>
                (w, setLoading false
                      (setConcepts (default [] (Postgrest.data resp)) p))
            end
      end
  end.

Definition fetchSharedBatch (env : Env) (shareId : string)
    (w : World) (p : state) : World * state :=
  let p := setLoading true p in
  let '(resp, w) := select_batches_containing shareId (select_fault env) w in
  match Postgrest.error resp with
  | Some batchError =>
      (w, setLoading false (setError (catch_message batchError) p))
  | None => after_query env shareId (Postgrest.data resp) w p
  end.

(** What the component returns for a state. *)
Definition render (p : state) : View :=
  if loading p then Spinner
  else if truthy_string (error p) || negb (bool_decide (is_Some (batch p)))
  then AlertView (if truthy_string (error p)
                  then default "" (error p) else "Content not found")
  else Content.
End SharedBriefPage.

Module SharedConceptPage.
Record state := {
  loading : bool;
  error : option string;
  concept : option BriefConcept.t
}.

(** The [useState] initial values. *)
Definition initial : state :=
  {| loading := true; error := None; concept := None |}.

Definition setLoading (b : bool) (p : state) : state :=
  {| loading := b; error := error p; concept := concept p |}.
Definition setError (e : string) (p : state) : state :=
  {| loading := loading p; error := Some e; concept := concept p |}.
Definition setConcept (c : BriefConcept.t) (p : state) : state :=
  {| loading := loading p; error := error p; concept := Some c |}.

(** The part of [fetchSharedConcept] that runs once the containment query
    has answered without an error: [conceptData] is its [data]. *)
Definition after_query (env : Env) (shareId : string)
    (conceptData : option (list BriefConcept.t)) (w : World) (p : state)
  : World * state :=
  match conceptData with
  | None | Some [] =>
      (w, setLoading false
            (setLoading false
               (setError "Shared concept not found or has expired" p)))
  | Some (conceptWithShare :: _) =>
      match share_settings_at shareId
              (BriefConcept.share_settings conceptWithShare) with
      | None =>
          (w, setLoading false
                (setLoading false (setError "Share settings not found" p)))
      | Some shareSettings =>
          if has_expired env shareSettings
          then
            (w, setLoading false
                  (setLoading false
                     (setError "This shared link has expired" p)))
          else (w, setLoading false (setConcept conceptWithShare p))
      end
  end.

Definition fetchSharedConcept (env : Env) (shareId : string)
    (w : World) (p : state) : World * state :=
  let p := setLoading true p in
  let '(resp, w) := select_concepts_containing shareId (select_fault env) w in
  match Postgrest.error resp with
  | Some conceptError =>
      (w, setLoading false (setError (catch_message conceptError) p))
  | None => after_query env shareId (Postgrest.data resp) w p
  end.

(** What the component returns for a state. *)
Definition render (p : state) : View :=
  if loading p then Spinner
  else if truthy_string (error p) || negb (bool_decide (is_Some (concept p)))
  then AlertView (if truthy_string (error p)
                  then default "" (error p) else "Concept not found")
  else Content.
End SharedConceptPage.

(** The state of each public page after its effect has run once on
    mount. *)
Definition batch_page (env : Env) (shareId : string) (w : World)
  : SharedBriefPage.state :=
  (SharedBriefPage.fetchSharedBatch env shareId w SharedBriefPage.initial).2.

Definition concept_page (env : Env) (shareId : string) (w : World)
  : SharedConceptPage.state :=
  (SharedConceptPage.fetchSharedConcept env shareId w
     SharedConceptPage.initial).2.

(** ** Sample data *)

Module Sample.
Definition acme : Brand.t :=
  {| Brand.id := "brand-1"; Brand.user_id := "user-1"; Brand.name := "Acme" |}.

(** A stored view-only link that never expires. *)
Definition settings_A : ShareSettings :=
  {| is_editable := JBool false; expires_at := exp_null; email := None;
     created_at := Some 500%Z; share_type := Some ShareType.link |}.

(** A stored editable link that expires at time 1000. *)
Definition settings_T : ShareSettings :=
  {| is_editable := JBool true; expires_at := exp_date (ValidDate 1000);
     email := None; created_at := Some 500%Z;
     share_type := Some ShareType.link |}.

Definition spring : BriefBatch.t :=
  {| BriefBatch.id := "batch-1"; BriefBatch.name := "Spring launch";
     BriefBatch.brand_id := "brand-1"; BriefBatch.user_id := "user-1";
     BriefBatch.status := None;
     BriefBatch.share_settings := Some {[ "share-A" := settings_A ]} |}.

Definition summer : BriefBatch.t :=
  {| BriefBatch.id := "batch-2"; BriefBatch.name := "Summer sale";
     BriefBatch.brand_id := "brand-1"; BriefBatch.user_id := "user-1";
     BriefBatch.status := None;
     BriefBatch.share_settings := Some {[ "share-T" := settings_T ]} |}.

Definition hook : BriefConcept.t :=
  {| BriefConcept.id := "concept-42"; BriefConcept.brief_batch_id := "batch-1";
     BriefConcept.concept_title := "Hook"; BriefConcept.order_in_batch := 2;
     BriefConcept.status := None;
     BriefConcept.share_settings := Some {[ "share-A" := settings_A ]} |}.

Definition teaser : BriefConcept.t :=
  {| BriefConcept.id := "concept-43"; BriefConcept.brief_batch_id := "batch-1";
     BriefConcept.concept_title := "Teaser"; BriefConcept.order_in_batch := 1;
     BriefConcept.status := None;
     BriefConcept.share_settings := Some {[ "share-T" := settings_T ]} |}.

Definition world : World :=
  {| brands := [acme]; brief_batches := [spring; summer];
     brief_concepts := [hook; teaser]; requests := [] |}.

(** A healthy environment at time [t]. *)
Definition env (t : Z) : Env :=
  {| origin := "https://app.example"; randomUUID := "share-B"; now := t;
     update_fault := None; select_fault := None; concepts_fault := None;
     invitation := fetch_resolves 200 |}.

(** The same, with the invitation request rejected. *)
Definition env_mail_down (t : Z) : Env :=
  {| origin := "https://app.example"; randomUUID := "share-B"; now := t;
     update_fault := None; select_fault := None; concepts_fault := None;
     invitation := fetch_rejects "Failed to fetch" |}.

(** What a caller passes for an editable link without expiry. *)
Definition request : ShareSettings :=
  {| is_editable := JBool true; expires_at := exp_null; email := None;
     created_at := None; share_type := None |}.

(** What a caller passes for an email share. *)
Definition mail_request : ShareSettings :=
  {| is_editable := JBool false; expires_at := exp_null;
     email := Some "pat@example.com"; created_at := None;
     share_type := None |}.
End Sample.

(** ** Services of the same module *)

(** [getBriefConcepts]: the concepts of a batch, in ascending
    [order_in_batch]; the error of a failed query is thrown as it is, and
    a missing [data] reads as the empty list. *)
Definition getBriefConcepts (batchId : string)
    (fault : option Postgrest.Error) (w : World)
  : Completion (list BriefConcept.t) * World :=
  let '(resp, w) := select_concepts_of_batch batchId fault w in
  match Postgrest.error resp with
  | Some error => (Throws (Postgrest.message error), w)
  | None => (Returns (default [] (Postgrest.data resp)), w)
  end.

(** [s.split('.')]: the pieces of [s] between its dots; never empty. *)
Fixpoint split_dot (s : string) : list string :=
  match s with
  | EmptyString => [EmptyString]
  | String c rest =>
      if Ascii.eqb c "."%char
      then EmptyString :: split_dot rest
      else match split_dot rest with
           | piece :: pieces => String c piece :: pieces
           | [] => [String c EmptyString]
           end
  end.

(** [parts.pop()]: the last element, [undefined] on an empty array. *)
Definition pop (parts : list string) : option string := last parts.

(** The object key [uploadMedia] stores a file under:
    [fileExt = file.name.split('.').pop()] and
    [filePath = `${userId}/${uuidv4()}.${fileExt}`]. *)
Definition uploadMedia_filePath (userId uuid file_name : string) : string :=
  let fileExt := pop (split_dot file_name) in
  userId +:+ "/" +:+ uuid +:+ "."
  +:+ match fileExt with Some ext => ext | None => "undefined" end.

(** [s] has no dot in it. *)
Definition dot_free (s : string) : Prop :=
  ¬ In "."%char (String.list_ascii_of_string s).

(** Environments in which one backend call fails. *)
Module Outage.
Definition gateway : Postgrest.Error :=
  {| Postgrest.message := "Bad gateway" |}.

Definition silent : Postgrest.Error := {| Postgrest.message := "" |}.

Definition update_down (t : Z) : Env :=
  {| origin := "https://app.example"; randomUUID := "share-B"; now := t;
     update_fault := Some gateway; select_fault := None;
     concepts_fault := None; invitation := fetch_resolves 200 |}.

Definition select_down (t : Z) : Env :=
  {| origin := "https://app.example"; randomUUID := "share-B"; now := t;
     update_fault := None; select_fault := Some silent;
     concepts_fault := None; invitation := fetch_resolves 200 |}.

Definition concepts_down (t : Z) : Env :=
  {| origin := "https://app.example"; randomUUID := "share-B"; now := t;
     update_fault := None; select_fault := None;
     concepts_fault := Some gateway; invitation := fetch_resolves 200 |}.
End Outage.

(** A world whose only link carries an [expires_at] that is not a date. *)
Module Odd.
Definition settings_X : ShareSettings :=
  {| is_editable := JBool false; expires_at := exp_date InvalidDate;
     email := None; created_at := Some 500%Z;
     share_type := Some ShareType.link |}.

Definition autumn : BriefBatch.t :=
  {| BriefBatch.id := "batch-3"; BriefBatch.name := "Autumn";
     BriefBatch.brand_id := "brand-9"; BriefBatch.user_id := "user-1";
     BriefBatch.status := None;
     BriefBatch.share_settings := Some {[ "share-X" := settings_X ]} |}.

Definition outro : BriefConcept.t :=
  {| BriefConcept.id := "concept-44"; BriefConcept.brief_batch_id := "batch-3";
     BriefConcept.concept_title := "Outro"; BriefConcept.order_in_batch := 0;
     BriefConcept.status := None;
     BriefConcept.share_settings := Some {[ "share-X" := settings_X ]} |}.

Definition world : World :=
  {| brands := []; brief_batches := [autumn]; brief_concepts := [outro];
     requests := [] |}.
End Odd.

(** A world in which two batches and two concepts hold the same
    identifier [share-D]: the first of each pair with the entry that never
    expires, the second with the entry that expires at time 1000. *)
Module Twin.
Definition alpha : BriefBatch.t :=
  {| BriefBatch.id := "batch-7"; BriefBatch.name := "Alpha";
     BriefBatch.brand_id := "brand-1"; BriefBatch.user_id := "user-1";
     BriefBatch.status := None;
     BriefBatch.share_settings := Some {[ "share-D" := Sample.settings_A ]} |}.

Definition beta : BriefBatch.t :=
  {| BriefBatch.id := "batch-8"; BriefBatch.name := "Beta";
     BriefBatch.brand_id := "brand-1"; BriefBatch.user_id := "user-1";
     BriefBatch.status := None;
     BriefBatch.share_settings := Some {[ "share-D" := Sample.settings_T ]} |}.

Definition solo : BriefConcept.t :=
  {| BriefConcept.id := "concept-71"; BriefConcept.brief_batch_id := "batch-7";
     BriefConcept.concept_title := "Solo"; BriefConcept.order_in_batch := 1;
     BriefConcept.status := None;
     BriefConcept.share_settings := Some {[ "share-D" := Sample.settings_A ]} |}.

Definition duet : BriefConcept.t :=
  {| BriefConcept.id := "concept-81"; BriefConcept.brief_batch_id := "batch-8";
     BriefConcept.concept_title := "Duet"; BriefConcept.order_in_batch := 1;
     BriefConcept.status := None;
     BriefConcept.share_settings := Some {[ "share-D" := Sample.settings_T ]} |}.

Definition world : World :=
  {| brands := [Sample.acme]; brief_batches := [alpha; beta];
     brief_concepts := [solo; duet]; requests := [] |}.

Definition joined (b : BriefBatch.t) : ExtendedBriefBatch :=
  join_brand (brands world) b.
End Twin.

(** [c] comes no later than [d] in its batch. *)
Definition in_order (c d : BriefConcept.t) : Prop :=
  (BriefConcept.order_in_batch c ≤ BriefConcept.order_in_batch d)%Z.

(** [needle] occurs somewhere in [hay]. *)
Fixpoint occurs_in (needle hay : string) : bool :=
  String.prefix needle hay
  || match hay with
     | EmptyString => false
     | String _ rest => occurs_in needle rest
     end.

(** * Properties *)

(** ** The backend requests *)

Lemma respond_ok {A : Type} (rows : A) :
  Postgrest.respond None rows
  = {| Postgrest.data := Some rows; Postgrest.error := None |}.
Proof. reflexivity. Qed.

Lemma contains_share_at shareId m :
  contains_share shareId m = true ↔ is_Some (share_settings_at shareId m).
Proof.
  destruct m as [s|]; simpl.
  - apply bool_decide_eq_true.
  - split; [discriminate | intros [x Hx]; discriminate].
Qed.

Lemma batches_containing_none shareId w :
  Forall (fun b => share_settings_at shareId (BriefBatch.share_settings b) = None)
    (brief_batches w) →
  batches_containing shareId w = [].
Proof.
  unfold batches_containing.
  induction 1 as [|b l Hb _ IH]; simpl; [reflexivity|].
  destruct (contains_share shareId (BriefBatch.share_settings b)) eqn:Hc.
  - apply contains_share_at in Hc. rewrite Hb in Hc.
    destruct Hc as [x Hx]. discriminate.
  - exact IH.
Qed.

Lemma concepts_containing_none shareId w :
  Forall (fun c => share_settings_at shareId (BriefConcept.share_settings c) = None)
    (brief_concepts w) →
  concepts_containing shareId w = [].
Proof.
  unfold concepts_containing.
  induction 1 as [|c l Hc _ IH]; simpl; [reflexivity|].
  destruct (contains_share shareId (BriefConcept.share_settings c)) eqn:E.
  - apply contains_share_at in E. rewrite Hc in E.
    destruct E as [x Hx]. discriminate.
  - exact IH.
Qed.

(** Updating rows selected by an id that no row carries changes nothing. *)
Lemma map_put_absent {A : Type} (hit : A → bool) (put : A → A) (l : list A) :
  Forall (fun x => hit x = false) l →
  List.map (fun x => if hit x then put x else x) l = l.
Proof.
  induction 1 as [|x l Hx _ IH]; simpl; [reflexivity|].
  rewrite Hx, IH. reflexivity.
Qed.

(** Every row selected by the id is in the table afterwards, rewritten. *)
Lemma map_put_present {A : Type} (hit : A → bool) (put : A → A) (l : list A) x :
  In x l → hit x = true →
  In (put x) (List.map (fun x => if hit x then put x else x) l).
Proof.
  intros Hin Hhit.
  apply (in_map (fun x => if hit x then put x else x)) in Hin.
  rewrite Hhit in Hin. exact Hin.
Qed.

(** ** Share Issuer *)

Section Issuer.
Variables (env : Env) (shareType : ShareType.t) (shareSettings : ShareSettings).

Let entry := settings_record env shareType shareSettings.

(** The tables are the same before and after the invitation step. *)
Lemma send_invitation_tables w :
  brands (send_invitation env shareType shareSettings w) = brands w
  ∧ brief_batches (send_invitation env shareType shareSettings w)
    = brief_batches w
  ∧ brief_concepts (send_invitation env shareType shareSettings w)
    = brief_concepts w.
Proof.
  unfold send_invitation.
  destruct (ShareType.is_email shareType && truthy_string (email shareSettings));
    [|auto].
  unfold post_invitation. destruct (invitation env); simpl; auto.
Qed.

(** When the update goes through, [shareBriefBatch] returns the new
    identifier and its URL, and the batches are the old ones with the
    [share_settings] column of the rows named [batchId] set to the
    one-entry object. *)
Lemma shareBriefBatch_ok batchId w :
  update_fault env = None →
  (shareBriefBatch env batchId shareType shareSettings w).1
  = Returns {| share_id := randomUUID env;
               share_url := origin env +:+ "/public/brief/" +:+ randomUUID env |}
  ∧ brief_batches (shareBriefBatch env batchId shareType shareSettings w).2
    = List.map
        (fun b => if String.eqb (BriefBatch.id b) batchId
                  then BriefBatch.with_share_settings
                         (Some {[ randomUUID env := entry ]}) b
                  else b)
        (brief_batches w)
  ∧ brief_concepts (shareBriefBatch env batchId shareType shareSettings w).2
    = brief_concepts w.
Proof.
  intros Hok. unfold shareBriefBatch, update_batch_share_settings.
  rewrite Hok. simpl.
  split; [reflexivity|].
  destruct (send_invitation_tables
              (log (Update "brief_batches")
                 {| brands := brands w;
                    brief_batches :=
                      List.map
                        (fun b => if String.eqb (BriefBatch.id b) batchId
                                  then BriefBatch.with_share_settings
                                         (Some {[ randomUUID env := entry ]}) b
                                  else b)
                        (brief_batches w);
                    brief_concepts := brief_concepts w;
                    requests := requests w |})) as (_ & Hb & Hc).
  split; [exact Hb | exact Hc].
Qed.

Lemma shareBriefConcept_ok conceptId w :
  update_fault env = None →
  (shareBriefConcept env conceptId shareType shareSettings w).1
  = Returns {| share_id := randomUUID env;
               share_url := origin env +:+ "/public/concept/" +:+ randomUUID env |}
  ∧ brief_concepts (shareBriefConcept env conceptId shareType shareSettings w).2
    = List.map
        (fun c => if String.eqb (BriefConcept.id c) conceptId
                  then BriefConcept.with_share_settings
                         (Some {[ randomUUID env := entry ]}) c
                  else c)
        (brief_concepts w)
  ∧ brief_batches (shareBriefConcept env conceptId shareType shareSettings w).2
    = brief_batches w.
Proof.
  intros Hok. unfold shareBriefConcept, update_concept_share_settings.
  rewrite Hok. simpl.
  split; [reflexivity|].
  destruct (send_invitation_tables
              (log (Update "brief_concepts")
                 {| brands := brands w;
                    brief_batches := brief_batches w;
                    brief_concepts :=
                      List.map
                        (fun c => if String.eqb (BriefConcept.id c) conceptId
                                  then BriefConcept.with_share_settings
                                         (Some {[ randomUUID env := entry ]}) c
                                  else c)
                        (brief_concepts w);
                    requests := requests w |})) as (_ & Hb & Hc).
  split; [exact Hc | exact Hb].
Qed.

(** A value is returned only when the update went through. *)
Lemma shareBriefBatch_returns batchId w r :
  (shareBriefBatch env batchId shareType shareSettings w).1 = Returns r →
  update_fault env = None.
Proof.
  unfold shareBriefBatch, update_batch_share_settings.
  destruct (update_fault env); simpl; [discriminate | reflexivity].
Qed.

Lemma shareBriefConcept_returns conceptId w r :
  (shareBriefConcept env conceptId shareType shareSettings w).1 = Returns r →
  update_fault env = None.
Proof.
  unfold shareBriefConcept, update_concept_share_settings.
  destruct (update_fault env); simpl; [discriminate | reflexivity].
Qed.
End Issuer.

(** ** Share Resolver *)

Section Resolver.
Variables (env : Env) (shareId : string) (w : World).

Import SharedBriefPage.

(** Once the containment query has answered, [fetchSharedBatch] goes on
    with the matching rows, each joined with its brand. *)
Lemma fetchSharedBatch_answered p :
  select_fault env = None →
  fetchSharedBatch env shareId w p
  = after_query env shareId
      (Some (List.map (join_brand (brands w)) (batches_containing shareId w)))
      (log (Select "brief_batches") w) (setLoading true p).
Proof.
  intros Hok. unfold fetchSharedBatch, select_batches_containing.
  rewrite Hok. reflexivity.
Qed.

(** No matching batch: the page shows the not-found message. *)
Lemma batch_not_found :
  select_fault env = None →
  batches_containing shareId w = [] →
  let p := (fetchSharedBatch env shareId w initial).2 in
  error p = Some "Shared content not found or has expired"
  ∧ batch p = None
  ∧ render p = AlertView "Shared content not found or has expired".
Proof.
  intros Hok Hnone. rewrite (fetchSharedBatch_answered _ Hok), Hnone.
  repeat split.
Qed.

(** The first matching batch carries a live entry: the page shows it. *)
Lemma batch_resolves b rest e :
  select_fault env = None →
  concepts_fault env = None →
  batches_containing shareId w = b :: rest →
  share_settings_at shareId (BriefBatch.share_settings b) = Some e →
  has_expired env e = false →
  let p := (fetchSharedBatch env shareId w initial).2 in
  error p = None
  ∧ batch p = Some (join_brand (brands w) b)
  ∧ isEditable p = truthy (is_editable e)
  ∧ render p = Content.
Proof.
  intros Hok Hok' Hfirst He Hlive.
  rewrite (fetchSharedBatch_answered _ Hok), Hfirst.
  unfold after_query, select_concepts_of_batch. simpl.
  rewrite He, Hlive, Hok'. simpl.
  destruct (find _ (brands w)); repeat split.
Qed.

(** The first matching batch carries an expired entry. *)
Lemma batch_expired b rest e :
  select_fault env = None →
  batches_containing shareId w = b :: rest →
  share_settings_at shareId (BriefBatch.share_settings b) = Some e →
  has_expired env e = true →
  let p := (fetchSharedBatch env shareId w initial).2 in
  error p = Some "This shared link has expired"
  ∧ batch p = None
  ∧ render p = AlertView "This shared link has expired".
Proof.
  intros Hok Hfirst He Hdead.
  rewrite (fetchSharedBatch_answered _ Hok), Hfirst.
  unfold after_query. simpl. rewrite He, Hdead.
  repeat split.
Qed.
End Resolver.

Section ConceptResolver.
Variables (env : Env) (shareId : string) (w : World).

Import SharedConceptPage.

Lemma fetchSharedConcept_answered p :
  select_fault env = None →
  fetchSharedConcept env shareId w p
  = after_query env shareId (Some (concepts_containing shareId w))
      (log (Select "brief_concepts") w) (setLoading true p).
Proof.
  intros Hok. unfold fetchSharedConcept, select_concepts_containing.
  rewrite Hok. reflexivity.
Qed.

Lemma concept_not_found :
  select_fault env = None →
  concepts_containing shareId w = [] →
  let p := (fetchSharedConcept env shareId w initial).2 in
  error p = Some "Shared concept not found or has expired"
  ∧ concept p = None
  ∧ render p = AlertView "Shared concept not found or has expired".
Proof.
  intros Hok Hnone. rewrite (fetchSharedConcept_answered _ Hok), Hnone.
  repeat split.
Qed.

Lemma concept_resolves c rest e :
  select_fault env = None →
  concepts_containing shareId w = c :: rest →
  share_settings_at shareId (BriefConcept.share_settings c) = Some e →
  has_expired env e = false →
  let p := (fetchSharedConcept env shareId w initial).2 in
  error p = None ∧ concept p = Some c ∧ render p = Content.
Proof.
  intros Hok Hfirst He Hlive.
  rewrite (fetchSharedConcept_answered _ Hok), Hfirst.
  unfold after_query. simpl. rewrite He, Hlive.
  repeat split.
Qed.

Lemma concept_expired c rest e :
  select_fault env = None →
  concepts_containing shareId w = c :: rest →
  share_settings_at shareId (BriefConcept.share_settings c) = Some e →
  has_expired env e = true →
  let p := (fetchSharedConcept env shareId w initial).2 in
  error p = Some "This shared link has expired"
  ∧ concept p = None
  ∧ render p = AlertView "This shared link has expired".
Proof.
  intros Hok Hfirst He Hdead.
  rewrite (fetchSharedConcept_answered _ Hok), Hfirst.
  unfold after_query. simpl. rewrite He, Hdead.
  repeat split.
Qed.
End ConceptResolver.

(** [has_expired] on an entry that expires at [t]: a strict comparison. *)
Lemma has_expired_at env e t :
  expires_at e = exp_date (ValidDate t) →
  has_expired env e = bool_decide (t < now env)%Z.
Proof.
  intros He. unfold has_expired. rewrite He. simpl.
  destruct (Z.ltb_spec t (now env)) as [Hlt|Hge].
  - symmetry. apply bool_decide_eq_true. exact Hlt.
  - symmetry. apply bool_decide_eq_false. lia.
Qed.

(** [has_expired] on an entry without expiry. *)
Lemma has_expired_never env e :
  expires_at e = exp_undefined ∨ expires_at e = exp_null →
  has_expired env e = false.
Proof.
  intros [He|He]; unfold has_expired; rewrite He; reflexivity.
Qed.

(** The permission flag is set from the entry before the concepts are
    fetched, so it does not depend on that second query. *)
Lemma batch_isEditable env shareId w b rest e :
  select_fault env = None →
  batches_containing shareId w = b :: rest →
  share_settings_at shareId (BriefBatch.share_settings b) = Some e →
  has_expired env e = false →
  SharedBriefPage.isEditable (batch_page env shareId w)
  = truthy (is_editable e).
Proof.
  intros Hok Hfirst He Hlive. unfold batch_page.
  rewrite (fetchSharedBatch_answered _ _ _ _ Hok), Hfirst.
  unfold SharedBriefPage.after_query, select_concepts_of_batch. simpl.
  rewrite He, Hlive.
  destruct (concepts_fault env); destruct (find _ (brands w)); reflexivity.
Qed.

(** After a share has been issued for [batchId], the rows of that id hold
    no entry under any other identifier. *)
Lemma shareBriefBatch_keeps_only_new env batchId shareType shareSettings w A b :
  update_fault env = None →
  A ≠ randomUUID env →
  In b (brief_batches
          (shareBriefBatch env batchId shareType shareSettings w).2) →
  BriefBatch.id b = batchId →
  share_settings_at A (BriefBatch.share_settings b) = None.
Proof.
  intros Hok Hne Hin Hid.
  destruct (shareBriefBatch_ok env shareType shareSettings batchId w Hok)
    as (_ & Hrows & _).
  rewrite Hrows in Hin. apply in_map_iff in Hin as (b0 & Hb & _).
  destruct (String.eqb_spec (BriefBatch.id b0) batchId) as [Heq|Hneq].
  - subst b. simpl. apply lookup_singleton_ne. congruence.
  - subst b. contradiction.
Qed.

Lemma shareBriefConcept_keeps_only_new env conceptId shareType shareSettings w A c :
  update_fault env = None →
  A ≠ randomUUID env →
  In c (brief_concepts
          (shareBriefConcept env conceptId shareType shareSettings w).2) →
  BriefConcept.id c = conceptId →
  share_settings_at A (BriefConcept.share_settings c) = None.
Proof.
  intros Hok Hne Hin Hid.
  destruct (shareBriefConcept_ok env shareType shareSettings conceptId w Hok)
    as (_ & Hrows & _).
  rewrite Hrows in Hin. apply in_map_iff in Hin as (c0 & Hc & _).
  destruct (String.eqb_spec (BriefConcept.id c0) conceptId) as [Heq|Hneq].
  - subst c. simpl. apply lookup_singleton_ne. congruence.
  - subst c. contradiction.
Qed.

(** ** The claims *)

(** C1 (not met by the code).  The claim: a second share with a fresh
    identifier leaves the entry of the first share present and unaltered.
    Evaluated on the sample world, where batch [batch-1] and concept
    [concept-42] each hold an entry under [share-A]: after a share is
    issued under [share-B], the [share_settings] column of the row is the
    one-entry object for [share-B], the entry for [share-A] is gone, and
    the public batch page no longer finds [share-A]. *)
Theorem second_share_replaces_first :
  let issued := settings_record (Sample.env 600) ShareType.link Sample.request in
  let w1 := (shareBriefBatch (Sample.env 600) "batch-1" ShareType.link
               Sample.request Sample.world).2 in
  let w2 := (shareBriefConcept (Sample.env 600) "concept-42" ShareType.link
               Sample.request Sample.world).2 in
  share_settings_at "share-A" (BriefBatch.share_settings Sample.spring)
  = Some Sample.settings_A
  ∧ brief_batches w1
    = [BriefBatch.with_share_settings (Some {[ "share-B" := issued ]})
         Sample.spring;
       Sample.summer]
  ∧ List.map (fun b => share_settings_at "share-A" (BriefBatch.share_settings b))
      (brief_batches w1) = [None; None]
  ∧ SharedBriefPage.error (batch_page (Sample.env 700) "share-A" w1)
    = Some "Shared content not found or has expired"
  ∧ share_settings_at "share-A" (BriefConcept.share_settings Sample.hook)
    = Some Sample.settings_A
  ∧ brief_concepts w2
    = [BriefConcept.with_share_settings (Some {[ "share-B" := issued ]})
         Sample.hook;
       Sample.teaser]
  ∧ List.map (fun c => share_settings_at "share-A" (BriefConcept.share_settings c))
      (brief_concepts w2) = [None; None].
Proof.
  vm_compute. repeat split.
Qed.

(** C2, as stated, fails at the instant of expiry.  The sample entry under
    [share-T] expires at time 1000; resolved at time 1000, both the batch
    page and the concept page show their content and report no error. *)
Lemma resolves_at_expiry_instant :
  expires_at Sample.settings_T = exp_date (ValidDate 1000)
  ∧ now (Sample.env 1000) = 1000%Z
  ∧ batches_containing "share-T" Sample.world = [Sample.summer]
  ∧ SharedBriefPage.error (batch_page (Sample.env 1000) "share-T" Sample.world)
    = None
  ∧ SharedBriefPage.render (batch_page (Sample.env 1000) "share-T" Sample.world)
    = Content
  ∧ concepts_containing "share-T" Sample.world = [Sample.teaser]
  ∧ SharedConceptPage.error
      (concept_page (Sample.env 1000) "share-T" Sample.world) = None
  ∧ SharedConceptPage.render
      (concept_page (Sample.env 1000) "share-T" Sample.world) = Content.
Proof.
  vm_compute. repeat split.
Qed.

(** C2, amended.  When the first row returned for [shareId] holds an
    entry that expires at [t] and the backend answers, the page shows the
    content as long as the current time is at most [t] (the instant [t]
    included), and shows "This shared link has expired" once the current
    time is strictly after [t].  This holds for the batch page and for
    the concept page. *)
Theorem expiry_is_strict env shareId w t :
  select_fault env = None →
  concepts_fault env = None →
  (∀ b rest e,
      batches_containing shareId w = b :: rest →
      share_settings_at shareId (BriefBatch.share_settings b) = Some e →
      expires_at e = exp_date (ValidDate t) →
      ((now env ≤ t)%Z →
         SharedBriefPage.error (batch_page env shareId w) = None
         ∧ SharedBriefPage.batch (batch_page env shareId w)
           = Some (join_brand (brands w) b)
         ∧ SharedBriefPage.render (batch_page env shareId w) = Content)
      ∧ ((t < now env)%Z →
         SharedBriefPage.error (batch_page env shareId w)
         = Some "This shared link has expired"
         ∧ SharedBriefPage.batch (batch_page env shareId w) = None
         ∧ SharedBriefPage.render (batch_page env shareId w)
           = AlertView "This shared link has expired"))
  ∧ (∀ c rest e,
      concepts_containing shareId w = c :: rest →
      share_settings_at shareId (BriefConcept.share_settings c) = Some e →
      expires_at e = exp_date (ValidDate t) →
      ((now env ≤ t)%Z →
         SharedConceptPage.error (concept_page env shareId w) = None
         ∧ SharedConceptPage.concept (concept_page env shareId w) = Some c
         ∧ SharedConceptPage.render (concept_page env shareId w) = Content)
      ∧ ((t < now env)%Z →
         SharedConceptPage.error (concept_page env shareId w)
         = Some "This shared link has expired"
         ∧ SharedConceptPage.concept (concept_page env shareId w) = None
         ∧ SharedConceptPage.render (concept_page env shareId w)
           = AlertView "This shared link has expired")).
Proof.
  intros Hok Hok'. split.
  - intros b rest e Hfirst He Ht.
    pose proof (has_expired_at env e t Ht) as Hexp. split; intros Hnow.
    + rewrite bool_decide_eq_false_2 in Hexp by lia.
      destruct (batch_resolves env shareId w b rest e Hok Hok' Hfirst He Hexp)
        as (H1 & H2 & _ & H4).
      auto.
    + rewrite bool_decide_eq_true_2 in Hexp by lia.
      exact (batch_expired env shareId w b rest e Hok Hfirst He Hexp).
  - intros c rest e Hfirst He Ht.
    pose proof (has_expired_at env e t Ht) as Hexp. split; intros Hnow.
    + rewrite bool_decide_eq_false_2 in Hexp by lia.
      exact (concept_resolves env shareId w c rest e Hok Hfirst He Hexp).
    + rewrite bool_decide_eq_true_2 in Hexp by lia.
      exact (concept_expired env shareId w c rest e Hok Hfirst He Hexp).
Qed.

(** The sample entry expiring at 1000, resolved at 1000 and at 1001. *)
Lemma expiry_is_strict_witness :
  SharedBriefPage.render (batch_page (Sample.env 1000) "share-T" Sample.world)
  = Content
  ∧ SharedBriefPage.render (batch_page (Sample.env 1001) "share-T" Sample.world)
    = AlertView "This shared link has expired"
  ∧ SharedConceptPage.render
      (concept_page (Sample.env 1000) "share-T" Sample.world) = Content
  ∧ SharedConceptPage.render
      (concept_page (Sample.env 1001) "share-T" Sample.world)
    = AlertView "This shared link has expired".
Proof.
  split; [|split; [|split]].
  - apply (proj1 (expiry_is_strict (Sample.env 1000) "share-T" Sample.world 1000
                    eq_refl eq_refl) Sample.summer [] Sample.settings_T);
      [vm_compute; reflexivity | vm_compute; reflexivity | reflexivity
      | simpl; lia].
  - apply (proj1 (expiry_is_strict (Sample.env 1001) "share-T" Sample.world 1000
                    eq_refl eq_refl) Sample.summer [] Sample.settings_T);
      [vm_compute; reflexivity | vm_compute; reflexivity | reflexivity
      | simpl; lia].
  - apply (proj2 (expiry_is_strict (Sample.env 1000) "share-T" Sample.world 1000
                    eq_refl eq_refl) Sample.teaser [] Sample.settings_T);
      [vm_compute; reflexivity | vm_compute; reflexivity | reflexivity
      | simpl; lia].
  - apply (proj2 (expiry_is_strict (Sample.env 1001) "share-T" Sample.world 1000
                    eq_refl eq_refl) Sample.teaser [] Sample.settings_T);
      [vm_compute; reflexivity | vm_compute; reflexivity | reflexivity
      | simpl; lia].
Defined.

(** C3, as stated, names the wrong message for the concept page.  For
    [share-Z], which no concept of the sample world holds, the concept
    page reports "Shared concept not found or has expired". *)
Lemma concept_page_has_its_own_message :
  Forall (fun c => share_settings_at "share-Z" (BriefConcept.share_settings c) = None)
    (brief_concepts Sample.world)
  ∧ SharedConceptPage.error
      (concept_page (Sample.env 600) "share-Z" Sample.world)
    = Some "Shared concept not found or has expired"
  ∧ SharedConceptPage.error
      (concept_page (Sample.env 600) "share-Z" Sample.world)
    ≠ Some "Shared content not found or has expired".
Proof.
  split; [repeat constructor|].
  split; [vm_compute; reflexivity | vm_compute; discriminate].
Qed.

(** C3, amended.  When the backend answers and no row of the queried
    table holds [shareId] as a key of its share-settings map, resolution
    fails as not found: the batch page reports "Shared content not found
    or has expired" and the concept page reports "Shared concept not found
    or has expired"; neither tells a never-issued identifier from a
    deleted one. *)
Theorem unknown_share_not_found env shareId w :
  select_fault env = None →
  (Forall (fun b => share_settings_at shareId (BriefBatch.share_settings b) = None)
     (brief_batches w) →
   SharedBriefPage.error (batch_page env shareId w)
   = Some "Shared content not found or has expired"
   ∧ SharedBriefPage.batch (batch_page env shareId w) = None
   ∧ SharedBriefPage.render (batch_page env shareId w)
     = AlertView "Shared content not found or has expired")
  ∧ (Forall (fun c => share_settings_at shareId (BriefConcept.share_settings c) = None)
       (brief_concepts w) →
     SharedConceptPage.error (concept_page env shareId w)
     = Some "Shared concept not found or has expired"
     ∧ SharedConceptPage.concept (concept_page env shareId w) = None
     ∧ SharedConceptPage.render (concept_page env shareId w)
       = AlertView "Shared concept not found or has expired").
Proof.
  intros Hok. split; intros Hnone.
  - apply batch_not_found; [exact Hok|].
    apply batches_containing_none, Hnone.
  - apply concept_not_found; [exact Hok|].
    apply concepts_containing_none, Hnone.
Qed.

(** [share-Z] is held by no row of the sample world. *)
Lemma unknown_share_not_found_witness :
  SharedBriefPage.render (batch_page (Sample.env 600) "share-Z" Sample.world)
  = AlertView "Shared content not found or has expired"
  ∧ SharedConceptPage.render
      (concept_page (Sample.env 600) "share-Z" Sample.world)
    = AlertView "Shared concept not found or has expired".
Proof.
  split.
  - apply (proj1 (unknown_share_not_found (Sample.env 600) "share-Z"
                    Sample.world eq_refl)).
    repeat constructor.
  - apply (proj2 (unknown_share_not_found (Sample.env 600) "share-Z"
                    Sample.world eq_refl)).
    repeat constructor.
Defined.

(** C4.  When the first row returned for [shareId] holds an entry whose
    [expires_at] is missing or null and the backend answers, the page
    shows the content and reports no error, whatever the current time
    [now env] is.  This holds for the batch page and for the concept
    page. *)
Theorem share_without_expiry_resolves env shareId w :
  select_fault env = None →
  concepts_fault env = None →
  (∀ b rest e,
      batches_containing shareId w = b :: rest →
      share_settings_at shareId (BriefBatch.share_settings b) = Some e →
      expires_at e = exp_undefined ∨ expires_at e = exp_null →
      SharedBriefPage.error (batch_page env shareId w) = None
      ∧ SharedBriefPage.batch (batch_page env shareId w)
        = Some (join_brand (brands w) b)
      ∧ SharedBriefPage.render (batch_page env shareId w) = Content)
  ∧ (∀ c rest e,
      concepts_containing shareId w = c :: rest →
      share_settings_at shareId (BriefConcept.share_settings c) = Some e →
      expires_at e = exp_undefined ∨ expires_at e = exp_null →
      SharedConceptPage.error (concept_page env shareId w) = None
      ∧ SharedConceptPage.concept (concept_page env shareId w) = Some c
      ∧ SharedConceptPage.render (concept_page env shareId w) = Content).
Proof.
  intros Hok Hok'. split.
  - intros b rest e Hfirst He Hnever.
    destruct (batch_resolves env shareId w b rest e Hok Hok' Hfirst He
                (has_expired_never env e Hnever)) as (H1 & H2 & _ & H4).
    auto.
  - intros c rest e Hfirst He Hnever.
    exact (concept_resolves env shareId w c rest e Hok Hfirst He
             (has_expired_never env e Hnever)).
Qed.

(** The sample entry without expiry, resolved far in the future. *)
Lemma share_without_expiry_resolves_witness :
  SharedBriefPage.render
    (batch_page (Sample.env 99999999) "share-A" Sample.world) = Content
  ∧ SharedConceptPage.render
      (concept_page (Sample.env 99999999) "share-A" Sample.world) = Content.
Proof.
  split.
  - apply (proj1 (share_without_expiry_resolves (Sample.env 99999999) "share-A"
                    Sample.world eq_refl eq_refl)
             Sample.spring [] Sample.settings_A);
      [vm_compute; reflexivity | vm_compute; reflexivity | right; reflexivity].
  - apply (proj2 (share_without_expiry_resolves (Sample.env 99999999) "share-A"
                    Sample.world eq_refl eq_refl)
             Sample.hook [] Sample.settings_A);
      [vm_compute; reflexivity | vm_compute; reflexivity | right; reflexivity].
Defined.

(** C5.  When the batch page resolves a share (the containment query
    answers, and the entry of its first row has not expired), the
    permission flag is the truthiness of the stored [is_editable]: a
    stored boolean is taken as it is, and a missing, null, zero or empty
    value gives view-only. *)
Theorem editable_iff_truthy env shareId w b rest e :
  select_fault env = None →
  batches_containing shareId w = b :: rest →
  share_settings_at shareId (BriefBatch.share_settings b) = Some e →
  has_expired env e = false →
  SharedBriefPage.isEditable (batch_page env shareId w)
  = truthy (is_editable e)
  ∧ (∀ v, is_editable e = JBool v →
          SharedBriefPage.isEditable (batch_page env shareId w) = v)
  ∧ (is_editable e = JUndefined ∨ is_editable e = JNull
     ∨ is_editable e = JNum 0 ∨ is_editable e = JStr "" →
     SharedBriefPage.isEditable (batch_page env shareId w) = false).
Proof.
  intros Hok Hfirst He Hlive.
  rewrite (batch_isEditable env shareId w b rest e Hok Hfirst He Hlive).
  split; [reflexivity|]. split.
  - intros v Hv. rewrite Hv. reflexivity.
  - intros [Hv|[Hv|[Hv|Hv]]]; rewrite Hv; reflexivity.
Qed.

(** The editable and the view-only sample entries. *)
Lemma editable_iff_truthy_witness :
  SharedBriefPage.isEditable (batch_page (Sample.env 600) "share-T" Sample.world)
  = true
  ∧ SharedBriefPage.isEditable
      (batch_page (Sample.env 600) "share-A" Sample.world) = false.
Proof.
  split.
  - apply (proj1 (proj2 (editable_iff_truthy (Sample.env 600) "share-T"
                           Sample.world Sample.summer [] Sample.settings_T
                           eq_refl ltac:(vm_compute; reflexivity)
                           ltac:(vm_compute; reflexivity) eq_refl))).
    reflexivity.
  - apply (proj1 (proj2 (editable_iff_truthy (Sample.env 600) "share-A"
                           Sample.world Sample.spring [] Sample.settings_A
                           eq_refl ltac:(vm_compute; reflexivity)
                           ltac:(vm_compute; reflexivity) eq_refl))).
    reflexivity.
Defined.

(** C6.  For an email share with a non-empty address, when the update has
    gone through and the invitation request is rejected, both issuers
    still return the identifier and the URL; every row of the owner's id
    is in the table with the new entry written, and the requests issued
    are the update followed by the invitation attempt. *)
Theorem failed_invitation_does_not_fail_share env ownerId shareSettings w reason :
  truthy_string (email shareSettings) = true →
  update_fault env = None →
  invitation env = fetch_rejects reason →
  let entry := settings_record env ShareType.email shareSettings in
  ((shareBriefBatch env ownerId ShareType.email shareSettings w).1
   = Returns {| share_id := randomUUID env;
                share_url := origin env +:+ "/public/brief/" +:+ randomUUID env |}
   ∧ (∀ b, In b (brief_batches w) → BriefBatch.id b = ownerId →
           In (BriefBatch.with_share_settings
                 (Some {[ randomUUID env := entry ]}) b)
             (brief_batches
                (shareBriefBatch env ownerId ShareType.email shareSettings w).2))
   ∧ requests (shareBriefBatch env ownerId ShareType.email shareSettings w).2
     = (requests w
       ++ [Update "brief_batches"; Post "/api/share/send-invitation"])%list)
  ∧ ((shareBriefConcept env ownerId ShareType.email shareSettings w).1
     = Returns {| share_id := randomUUID env;
                  share_url :=
                    origin env +:+ "/public/concept/" +:+ randomUUID env |}
     ∧ (∀ c, In c (brief_concepts w) → BriefConcept.id c = ownerId →
             In (BriefConcept.with_share_settings
                   (Some {[ randomUUID env := entry ]}) c)
               (brief_concepts
                  (shareBriefConcept env ownerId ShareType.email
                     shareSettings w).2))
     ∧ requests (shareBriefConcept env ownerId ShareType.email shareSettings w).2
       = (requests w
         ++ [Update "brief_concepts"; Post "/api/share/send-invitation"])%list).
Proof.
  intros Hmail Hok Hdown entry. split.
  - destruct (shareBriefBatch_ok env ShareType.email shareSettings ownerId w Hok)
      as (Hres & Hrows & _).
    split; [exact Hres|]. split.
    + intros b Hin Hid. rewrite Hrows.
      apply (map_put_present
               (fun b => String.eqb (BriefBatch.id b) ownerId)
               (BriefBatch.with_share_settings
                  (Some {[ randomUUID env := entry ]}))); [exact Hin|].
      apply String.eqb_eq, Hid.
    + unfold shareBriefBatch, update_batch_share_settings, send_invitation,
        post_invitation.
      rewrite Hok, Hmail, Hdown. simpl. rewrite <- app_assoc. reflexivity.
  - destruct (shareBriefConcept_ok env ShareType.email shareSettings ownerId w Hok)
      as (Hres & Hrows & _).
    split; [exact Hres|]. split.
    + intros c Hin Hid. rewrite Hrows.
      apply (map_put_present
               (fun c => String.eqb (BriefConcept.id c) ownerId)
               (BriefConcept.with_share_settings
                  (Some {[ randomUUID env := entry ]}))); [exact Hin|].
      apply String.eqb_eq, Hid.
    + unfold shareBriefConcept, update_concept_share_settings, send_invitation,
        post_invitation.
      rewrite Hok, Hmail, Hdown. simpl. rewrite <- app_assoc. reflexivity.
Qed.

(** An email share on the sample world while the mail endpoint is down. *)
Lemma failed_invitation_does_not_fail_share_witness :
  (shareBriefBatch (Sample.env_mail_down 600) "batch-1" ShareType.email
     Sample.mail_request Sample.world).1
  = Returns {| share_id := "share-B";
               share_url := "https://app.example/public/brief/share-B" |}
  ∧ (shareBriefConcept (Sample.env_mail_down 600) "concept-42" ShareType.email
       Sample.mail_request Sample.world).1
    = Returns {| share_id := "share-B";
                 share_url := "https://app.example/public/concept/share-B" |}.
Proof.
  split.
  - apply (proj1 (failed_invitation_does_not_fail_share
                    (Sample.env_mail_down 600) "batch-1" Sample.mail_request
                    Sample.world "Failed to fetch" eq_refl eq_refl eq_refl)).
  - apply (proj2 (failed_invitation_does_not_fail_share
                    (Sample.env_mail_down 600) "concept-42" Sample.mail_request
                    Sample.world "Failed to fetch" eq_refl eq_refl eq_refl)).
Defined.

(** C7.  When the containment query returns more than one row, the row
    at index 0 is the owner, whatever the rows after it hold.  For every
    returned list of two or more rows whose first row holds an entry
    under [shareId], and every state the page is in: if that entry has
    not expired, the first row is set as the batch (the concept), the
    permission is read from the first row's entry, the concepts fetched
    are those of the first row's id, and no error is set; if that entry
    has expired, the page reports the link as expired and sets no owner,
    even when a later row holds a live entry.  No row after index 0 is
    ever set, and having several rows is never itself a failure. *)
Theorem first_match_is_owner env shareId w :
  (∀ first second rest e p,
      share_settings_at shareId (BriefBatch.share_settings (row first))
      = Some e →
      let r :=
        (SharedBriefPage.after_query env shareId
           (Some (first :: second :: rest)) w p).2 in
      (has_expired env e = false →
       SharedBriefPage.batch r = Some first
       ∧ SharedBriefPage.isEditable r = truthy (is_editable e)
       ∧ (concepts_fault env = None →
          SharedBriefPage.error r = SharedBriefPage.error p
          ∧ SharedBriefPage.concepts r
            = order_ascending
                (List.filter
                   (fun c => String.eqb (BriefConcept.brief_batch_id c)
                               (BriefBatch.id (row first)))
                   (brief_concepts w))))
      ∧ (has_expired env e = true →
         SharedBriefPage.batch r = SharedBriefPage.batch p
         ∧ SharedBriefPage.error r = Some "This shared link has expired"))
  ∧ (∀ first second rest e p,
      share_settings_at shareId (BriefConcept.share_settings first) = Some e →
      let r :=
        (SharedConceptPage.after_query env shareId
           (Some (first :: second :: rest)) w p).2 in
      (has_expired env e = false →
       SharedConceptPage.concept r = Some first
       ∧ SharedConceptPage.error r = SharedConceptPage.error p)
      ∧ (has_expired env e = true →
         SharedConceptPage.concept r = SharedConceptPage.concept p
         ∧ SharedConceptPage.error r = Some "This shared link has expired")).
Proof.
  split; intros first second rest e p He r; subst r.
  - unfold SharedBriefPage.after_query, select_concepts_of_batch.
    rewrite He. split; intros Hexp; rewrite Hexp.
    + split; [|split].
      * destruct (concepts_fault env), (brands_of first); reflexivity.
      * destruct (concepts_fault env), (brands_of first); reflexivity.
      * intros Hcon. rewrite Hcon. simpl.
        destruct (brands_of first); split; reflexivity.
    + split; reflexivity.
  - unfold SharedConceptPage.after_query.
    rewrite He. split; intros Hexp; rewrite Hexp; split; reflexivity.
Qed.

(** The two rows under [share-D], opened at time 5000 when the second
    row's entry has expired and the first row's has not: in the order
    returned, the first row is the owner; in the opposite order, the
    link is reported as expired. *)
Lemma first_match_is_owner_witness :
  SharedBriefPage.batch
    (SharedBriefPage.after_query (Sample.env 5000) "share-D"
       (Some [Twin.joined Twin.alpha; Twin.joined Twin.beta]) Twin.world
       SharedBriefPage.initial).2
  = Some (Twin.joined Twin.alpha)
  ∧ SharedBriefPage.error
      (SharedBriefPage.after_query (Sample.env 5000) "share-D"
         (Some [Twin.joined Twin.beta; Twin.joined Twin.alpha]) Twin.world
         SharedBriefPage.initial).2
    = Some "This shared link has expired"
  ∧ SharedConceptPage.concept
      (SharedConceptPage.after_query (Sample.env 5000) "share-D"
         (Some [Twin.solo; Twin.duet]) Twin.world
         SharedConceptPage.initial).2
    = Some Twin.solo
  ∧ SharedConceptPage.error
      (SharedConceptPage.after_query (Sample.env 5000) "share-D"
         (Some [Twin.duet; Twin.solo]) Twin.world
         SharedConceptPage.initial).2
    = Some "This shared link has expired".
Proof.
  split; [|split; [|split]].
  - apply (proj1 (first_match_is_owner (Sample.env 5000) "share-D" Twin.world)
             (Twin.joined Twin.alpha) (Twin.joined Twin.beta) []
             Sample.settings_A SharedBriefPage.initial);
      vm_compute; reflexivity.
  - apply (proj1 (first_match_is_owner (Sample.env 5000) "share-D" Twin.world)
             (Twin.joined Twin.beta) (Twin.joined Twin.alpha) []
             Sample.settings_T SharedBriefPage.initial);
      vm_compute; reflexivity.
  - apply (proj2 (first_match_is_owner (Sample.env 5000) "share-D" Twin.world)
             Twin.solo Twin.duet [] Sample.settings_A
             SharedConceptPage.initial);
      vm_compute; reflexivity.
  - apply (proj2 (first_match_is_owner (Sample.env 5000) "share-D" Twin.world)
             Twin.duet Twin.solo [] Sample.settings_T
             SharedConceptPage.initial);
      vm_compute; reflexivity.
Defined.

(** C8, as stated, fails for concept shares: the URL returned by
    [shareBriefConcept] is the origin, the path [/public/concept/] and the
    share identifier.  The concept's id does not occur in it, and two
    different concepts get the same URL. *)
Lemma concept_share_url_omits_owner :
  (shareBriefConcept (Sample.env 600) "concept-42" ShareType.link
     Sample.request Sample.world).1
  = Returns {| share_id := "share-B";
               share_url := "https://app.example/public/concept/share-B" |}
  ∧ occurs_in "concept-42" "https://app.example/public/concept/share-B" = false
  ∧ (shareBriefConcept (Sample.env 600) "concept-43" ShareType.link
       Sample.request Sample.world).1
    = (shareBriefConcept (Sample.env 600) "concept-42" ShareType.link
         Sample.request Sample.world).1.
Proof.
  vm_compute. repeat split.
Qed.

(** C8, amended.  Whenever an issuer returns, the identifier returned is
    the freshly generated one and the URL is the caller's origin followed
    by a fixed path and that identifier: [/public/brief/] for a batch,
    [/public/concept/] for a concept.  The owner's id is not part of
    either URL. *)
Theorem share_url_shape env ownerId shareType shareSettings w r :
  ((shareBriefBatch env ownerId shareType shareSettings w).1 = Returns r →
   share_id r = randomUUID env
   ∧ share_url r = origin env +:+ "/public/brief/" +:+ share_id r)
  ∧ ((shareBriefConcept env ownerId shareType shareSettings w).1 = Returns r →
     share_id r = randomUUID env
     ∧ share_url r = origin env +:+ "/public/concept/" +:+ share_id r).
Proof.
  split; intros Hr.
  - pose proof (shareBriefBatch_returns _ _ _ _ _ _ Hr) as Hok.
    destruct (shareBriefBatch_ok env shareType shareSettings ownerId w Hok)
      as (Hres & _).
    rewrite Hres in Hr. injection Hr as <-. split; reflexivity.
  - pose proof (shareBriefConcept_returns _ _ _ _ _ _ Hr) as Hok.
    destruct (shareBriefConcept_ok env shareType shareSettings ownerId w Hok)
      as (Hres & _).
    rewrite Hres in Hr. injection Hr as <-. split; reflexivity.
Qed.

(** The URLs returned on the sample world. *)
Lemma share_url_shape_witness :
  share_url {| share_id := "share-B";
               share_url := "https://app.example/public/brief/share-B" |}
  = origin (Sample.env 600) +:+ "/public/brief/" +:+ "share-B"
  ∧ share_url {| share_id := "share-B";
                 share_url := "https://app.example/public/concept/share-B" |}
    = origin (Sample.env 600) +:+ "/public/concept/" +:+ "share-B".
Proof.
  split.
  - apply (proj1 (share_url_shape (Sample.env 600) "batch-1" ShareType.link
                    Sample.request Sample.world
                    {| share_id := "share-B";
                       share_url := "https://app.example/public/brief/share-B" |})).
    vm_compute. reflexivity.
  - apply (proj2 (share_url_shape (Sample.env 600) "concept-42" ShareType.link
                    Sample.request Sample.world
                    {| share_id := "share-B";
                       share_url :=
                         "https://app.example/public/concept/share-B" |})).
    vm_compute. reflexivity.
Defined.

(** C9.  Resolution is read-only.  For every environment (faults
    included), identifier, world and page state, running the effect of
    the batch page or of the concept page leaves the three tables as they
    were, and the requests it adds to the log are all selects. *)
Theorem resolution_is_read_only env shareId w :
  (∀ p,
      let w' := (SharedBriefPage.fetchSharedBatch env shareId w p).1 in
      brands w' = brands w
      ∧ brief_batches w' = brief_batches w
      ∧ brief_concepts w' = brief_concepts w
      ∧ ∃ qs, requests w' = (requests w ++ qs)%list
              ∧ Forall (fun q => is_select q = true) qs)
  ∧ (∀ p,
      let w' := (SharedConceptPage.fetchSharedConcept env shareId w p).1 in
      brands w' = brands w
      ∧ brief_batches w' = brief_batches w
      ∧ brief_concepts w' = brief_concepts w
      ∧ ∃ qs, requests w' = (requests w ++ qs)%list
              ∧ Forall (fun q => is_select q = true) qs).
Proof.
  split; intros p w'; subst w'.
  - unfold SharedBriefPage.fetchSharedBatch, select_batches_containing.
    destruct (select_fault env) as [err|]; simpl.
    { repeat (split; [reflexivity|]).
      exists [Select "brief_batches"]. split; [reflexivity|].
      repeat constructor. }
    destruct (batches_containing shareId w) as [|b rest]; simpl.
    { repeat (split; [reflexivity|]).
      exists [Select "brief_batches"]. split; [reflexivity|].
      repeat constructor. }
    destruct (share_settings_at shareId (BriefBatch.share_settings b))
      as [e|]; simpl.
    2:{ repeat (split; [reflexivity|]).
        exists [Select "brief_batches"]. split; [reflexivity|].
        repeat constructor. }
    destruct (has_expired env e); simpl.
    { repeat (split; [reflexivity|]).
      exists [Select "brief_batches"]. split; [reflexivity|].
      repeat constructor. }
    unfold select_concepts_of_batch.
    destruct (concepts_fault env); simpl;
      (repeat (split; [reflexivity|]);
       exists [Select "brief_batches"; Select "brief_concepts"];
       split; [rewrite <- app_assoc; reflexivity | repeat constructor]).
  - unfold SharedConceptPage.fetchSharedConcept, select_concepts_containing.
    destruct (select_fault env) as [err|]; simpl.
    { repeat (split; [reflexivity|]).
      exists [Select "brief_concepts"]. split; [reflexivity|].
      repeat constructor. }
    destruct (concepts_containing shareId w) as [|c rest]; simpl.
    { repeat (split; [reflexivity|]).
      exists [Select "brief_concepts"]. split; [reflexivity|].
      repeat constructor. }
    destruct (share_settings_at shareId (BriefConcept.share_settings c))
      as [e|]; simpl.
    2:{ repeat (split; [reflexivity|]).
        exists [Select "brief_concepts"]. split; [reflexivity|].
        repeat constructor. }
    destruct (has_expired env e); simpl;
      (repeat (split; [reflexivity|]);
       exists [Select "brief_concepts"]; split; [reflexivity|];
       repeat constructor).
Qed.

(** C10.  Issuing a share for an id that no row carries does not fail.
    When the update is answered without an error and no row of the table
    has the given id, each issuer returns the identifier and the URL,
    both tables are what they were, and (the identifier being new and the
    backend answering) the public page for the returned identifier
    reports not found. *)
Theorem share_for_unknown_owner_succeeds env env' ownerId shareType shareSettings w :
  update_fault env = None →
  select_fault env' = None →
  (Forall (fun b => BriefBatch.id b ≠ ownerId) (brief_batches w) →
   Forall (fun b => share_settings_at (randomUUID env)
                      (BriefBatch.share_settings b) = None)
     (brief_batches w) →
   (shareBriefBatch env ownerId shareType shareSettings w).1
   = Returns {| share_id := randomUUID env;
                share_url := origin env +:+ "/public/brief/" +:+ randomUUID env |}
   ∧ brief_batches (shareBriefBatch env ownerId shareType shareSettings w).2
     = brief_batches w
   ∧ brief_concepts (shareBriefBatch env ownerId shareType shareSettings w).2
     = brief_concepts w
   ∧ SharedBriefPage.error
       (batch_page env' (randomUUID env)
          (shareBriefBatch env ownerId shareType shareSettings w).2)
     = Some "Shared content not found or has expired")
  ∧ (Forall (fun c => BriefConcept.id c ≠ ownerId) (brief_concepts w) →
     Forall (fun c => share_settings_at (randomUUID env)
                        (BriefConcept.share_settings c) = None)
       (brief_concepts w) →
     (shareBriefConcept env ownerId shareType shareSettings w).1
     = Returns {| share_id := randomUUID env;
                  share_url :=
                    origin env +:+ "/public/concept/" +:+ randomUUID env |}
     ∧ brief_batches (shareBriefConcept env ownerId shareType shareSettings w).2
       = brief_batches w
     ∧ brief_concepts (shareBriefConcept env ownerId shareType shareSettings w).2
       = brief_concepts w
     ∧ SharedConceptPage.error
         (concept_page env' (randomUUID env)
            (shareBriefConcept env ownerId shareType shareSettings w).2)
       = Some "Shared concept not found or has expired").
Proof.
  intros Hok Hok'. split; intros Habsent Hfresh.
  - destruct (shareBriefBatch_ok env shareType shareSettings ownerId w Hok)
      as (Hres & Hrows & Hother).
    rewrite map_put_absent in Hrows.
    2:{ eapply Forall_impl; [exact Habsent|].
        intros b Hb. apply String.eqb_neq, Hb. }
    repeat (split; [assumption|]).
    apply batch_not_found; [exact Hok'|].
    apply batches_containing_none. rewrite Hrows. exact Hfresh.
  - destruct (shareBriefConcept_ok env shareType shareSettings ownerId w Hok)
      as (Hres & Hrows & Hother).
    rewrite map_put_absent in Hrows.
    2:{ eapply Forall_impl; [exact Habsent|].
        intros c Hc. apply String.eqb_neq, Hc. }
    repeat (split; [assumption|]).
    apply concept_not_found; [exact Hok'|].
    apply concepts_containing_none. rewrite Hrows. exact Hfresh.
Qed.

(** Ids [batch-404] and [concept-404] name no row of the sample world. *)
Lemma share_for_unknown_owner_succeeds_witness :
  (shareBriefBatch (Sample.env 600) "batch-404" ShareType.link
     Sample.request Sample.world).1
  = Returns {| share_id := "share-B";
               share_url := "https://app.example/public/brief/share-B" |}
  ∧ (shareBriefConcept (Sample.env 600) "concept-404" ShareType.link
       Sample.request Sample.world).1
    = Returns {| share_id := "share-B";
                 share_url := "https://app.example/public/concept/share-B" |}.
Proof.
  split.
  - apply (proj1 (share_for_unknown_owner_succeeds (Sample.env 600)
                    (Sample.env 700) "batch-404" ShareType.link Sample.request
                    Sample.world eq_refl eq_refl));
      repeat constructor; discriminate.
  - apply (proj2 (share_for_unknown_owner_succeeds (Sample.env 600)
                    (Sample.env 700) "concept-404" ShareType.link Sample.request
                    Sample.world eq_refl eq_refl));
      repeat constructor; discriminate.
Defined.

(** ** Further properties of the issuers *)

Lemma shareBriefBatch_brands env batchId shareType shareSettings w :
  brands (shareBriefBatch env batchId shareType shareSettings w).2 = brands w.
Proof.
  unfold shareBriefBatch, update_batch_share_settings.
  destruct (update_fault env); simpl; [reflexivity|].
  match goal with
  | |- brands (send_invitation _ _ _ ?w1) = _ =>
      destruct (send_invitation_tables env shareType shareSettings w1)
        as (Hb & _)
  end.
  exact Hb.
Qed.

Lemma shareBriefConcept_brands env conceptId shareType shareSettings w :
  brands (shareBriefConcept env conceptId shareType shareSettings w).2 = brands w.
Proof.
  unfold shareBriefConcept, update_concept_share_settings.
  destruct (update_fault env); simpl; [reflexivity|].
  match goal with
  | |- brands (send_invitation _ _ _ ?w1) = _ =>
      destruct (send_invitation_tables env shareType shareSettings w1)
        as (Hb & _)
  end.
  exact Hb.
Qed.

(** X1.  When the update is answered with an error, each issuer throws an
    error whose message is its own prefix followed by the backend's
    message; no table is changed and the only request issued is the
    update: no invitation is attempted. *)
Theorem failed_update_is_thrown env ownerId shareType shareSettings w err :
  update_fault env = Some err →
  ((shareBriefBatch env ownerId shareType shareSettings w).1
   = Throws ("Failed to share brief batch: " +:+ Postgrest.message err)
   ∧ brief_batches (shareBriefBatch env ownerId shareType shareSettings w).2
     = brief_batches w
   ∧ brief_concepts (shareBriefBatch env ownerId shareType shareSettings w).2
     = brief_concepts w
   ∧ requests (shareBriefBatch env ownerId shareType shareSettings w).2
     = (requests w ++ [Update "brief_batches"])%list)
  ∧ ((shareBriefConcept env ownerId shareType shareSettings w).1
     = Throws ("Failed to share brief concept: " +:+ Postgrest.message err)
     ∧ brief_batches (shareBriefConcept env ownerId shareType shareSettings w).2
       = brief_batches w
     ∧ brief_concepts (shareBriefConcept env ownerId shareType shareSettings w).2
       = brief_concepts w
     ∧ requests (shareBriefConcept env ownerId shareType shareSettings w).2
       = (requests w ++ [Update "brief_concepts"])%list).
Proof.
  intros Hdown. split.
  - unfold shareBriefBatch, update_batch_share_settings. rewrite Hdown.
    simpl. auto.
  - unfold shareBriefConcept, update_concept_share_settings. rewrite Hdown.
    simpl. auto.
Qed.

(** The sample world while the update endpoint is down. *)
Lemma failed_update_is_thrown_witness :
  (shareBriefBatch (Outage.update_down 600) "batch-1" ShareType.email
     Sample.mail_request Sample.world).1
  = Throws "Failed to share brief batch: Bad gateway"
  ∧ (shareBriefConcept (Outage.update_down 600) "concept-42" ShareType.email
       Sample.mail_request Sample.world).1
    = Throws "Failed to share brief concept: Bad gateway".
Proof.
  split.
  - apply (proj1 (failed_update_is_thrown (Outage.update_down 600) "batch-1"
                    ShareType.email Sample.mail_request Sample.world
                    Outage.gateway eq_refl)).
  - apply (proj2 (failed_update_is_thrown (Outage.update_down 600) "concept-42"
                    ShareType.email Sample.mail_request Sample.world
                    Outage.gateway eq_refl)).
Defined.

(** X2.  After a successful update, an invitation request is issued
    exactly when the share type is [email] and the address is a non-empty
    string, whatever that request's outcome; a link share, or an email
    share without an address, issues the update only. *)
Theorem invitation_only_for_email env ownerId shareType shareSettings w :
  update_fault env = None →
  let mail :=
    if ShareType.is_email shareType && truthy_string (email shareSettings)
    then [Post "/api/share/send-invitation"] else [] in
  requests (shareBriefBatch env ownerId shareType shareSettings w).2
  = (requests w ++ Update "brief_batches" :: mail)%list
  ∧ requests (shareBriefConcept env ownerId shareType shareSettings w).2
    = (requests w ++ Update "brief_concepts" :: mail)%list.
Proof.
  intros Hok mail. subst mail.
  unfold shareBriefBatch, shareBriefConcept, update_batch_share_settings,
    update_concept_share_settings, send_invitation, post_invitation.
  rewrite Hok. simpl.
  destruct (ShareType.is_email shareType && truthy_string (email shareSettings)).
  - destruct (invitation env); simpl; rewrite <- !app_assoc; auto.
  - simpl. auto.
Qed.

(** An email share without an address, and one with an address. *)
Lemma invitation_only_for_email_witness :
  requests (shareBriefBatch (Sample.env 600) "batch-1" ShareType.email
              Sample.request Sample.world).2
  = [Update "brief_batches"]
  ∧ requests (shareBriefConcept (Sample.env 600) "concept-42" ShareType.email
                Sample.mail_request Sample.world).2
    = [Update "brief_concepts"; Post "/api/share/send-invitation"].
Proof.
  split.
  - apply (proj1 (invitation_only_for_email (Sample.env 600) "batch-1"
                    ShareType.email Sample.request Sample.world eq_refl)).
  - apply (proj2 (invitation_only_for_email (Sample.env 600) "concept-42"
                    ShareType.email Sample.mail_request Sample.world eq_refl)).
Defined.

(** Which rows are in a table after rows have been rewritten through an
    id test. *)
Lemma map_put_frame {A : Type} (hit : A → bool) (put : A → A) (l : list A) :
  (∀ x, hit (put x) = hit x) →
  (∀ y, hit y = false →
        In y (List.map (fun x => if hit x then put x else x) l) ↔ In y l)
  ∧ (∀ y, hit y = true →
          In y (List.map (fun x => if hit x then put x else x) l) →
          ∃ x, In x l ∧ hit x = true ∧ y = put x).
Proof.
  intros Hkeep. split.
  - intros y Hy. rewrite in_map_iff. split.
    + intros (x & Hx & Hin). destruct (hit x) eqn:E.
      * subst y. rewrite Hkeep, E in Hy. discriminate.
      * subst y. exact Hin.
    + intros Hin. exists y. rewrite Hy. auto.
  - intros y Hy Hin. apply in_map_iff in Hin as (x & Hx & Hin).
    destruct (hit x) eqn:E.
    + exists x. auto.
    + subst y. rewrite E in Hy. discriminate.
Qed.

(** X3.  A successful [shareBriefBatch] touches the rows of the given id
    and nothing else: the table holds the same ids as before, each as
    often, a row of another id is in the table afterwards exactly when
    it was before, a row of the given id is an old row with its
    [share_settings] set to the one new entry, and brands and concepts
    are unchanged.  Nothing is said about the order of the rows. *)
Theorem shareBriefBatch_frame env batchId shareType shareSettings w :
  update_fault env = None →
  let w' := (shareBriefBatch env batchId shareType shareSettings w).2 in
  let entry := settings_record env shareType shareSettings in
  Permutation (List.map BriefBatch.id (brief_batches w'))
    (List.map BriefBatch.id (brief_batches w))
  ∧ (∀ b, BriefBatch.id b ≠ batchId →
          In b (brief_batches w') ↔ In b (brief_batches w))
  ∧ (∀ b', In b' (brief_batches w') → BriefBatch.id b' = batchId →
           ∃ b, In b (brief_batches w) ∧ BriefBatch.id b = batchId
                ∧ b' = BriefBatch.with_share_settings
                         (Some {[ randomUUID env := entry ]}) b)
  ∧ brief_concepts w' = brief_concepts w
  ∧ brands w' = brands w.
Proof.
  intros Hok w' entry. subst w'.
  destruct (shareBriefBatch_ok env shareType shareSettings batchId w Hok)
    as (_ & Hrows & Hother).
  rewrite Hrows.
  destruct (map_put_frame
              (fun b => String.eqb (BriefBatch.id b) batchId)
              (BriefBatch.with_share_settings
                 (Some {[ randomUUID env := entry ]}))
              (brief_batches w) (fun x => eq_refl)) as (Hout & Hin).
  split.
  { rewrite List.map_map.
    rewrite (List.map_ext _ BriefBatch.id); [reflexivity|].
    intros b. destruct (String.eqb (BriefBatch.id b) batchId); reflexivity. }
  split.
  { intros b Hb. apply Hout. apply String.eqb_neq, Hb. }
  split.
  { intros b' Hb' Hid. apply String.eqb_eq in Hid.
    destruct (Hin b' Hid Hb') as (b & H1 & H2 & H3).
    exists b. apply String.eqb_eq in H2. auto. }
  split; [exact Hother | apply shareBriefBatch_brands].
Qed.

(** A link share of [batch-1] leaves [batch-2] in place. *)
Lemma shareBriefBatch_frame_witness :
  In Sample.summer
    (brief_batches
       (shareBriefBatch (Sample.env 600) "batch-1" ShareType.link
          Sample.request Sample.world).2).
Proof.
  apply (proj1 (proj2 (shareBriefBatch_frame (Sample.env 600) "batch-1"
                         ShareType.link Sample.request Sample.world eq_refl))
           Sample.summer).
  - discriminate.
  - right. left. reflexivity.
Defined.

(** X4.  The same for [shareBriefConcept] and the concepts table: the
    table holds the same ids as before, each as often, rows of another id
    are untouched, a row of the given id is an old row with its
    [share_settings] set to the one new entry, and brands and batches are
    unchanged.  Nothing is said about the order of the rows. *)
Theorem shareBriefConcept_frame env conceptId shareType shareSettings w :
  update_fault env = None →
  let w' := (shareBriefConcept env conceptId shareType shareSettings w).2 in
  let entry := settings_record env shareType shareSettings in
  Permutation (List.map BriefConcept.id (brief_concepts w'))
    (List.map BriefConcept.id (brief_concepts w))
  ∧ (∀ c, BriefConcept.id c ≠ conceptId →
          In c (brief_concepts w') ↔ In c (brief_concepts w))
  ∧ (∀ c', In c' (brief_concepts w') → BriefConcept.id c' = conceptId →
           ∃ c, In c (brief_concepts w) ∧ BriefConcept.id c = conceptId
                ∧ c' = BriefConcept.with_share_settings
                         (Some {[ randomUUID env := entry ]}) c)
  ∧ brief_batches w' = brief_batches w
  ∧ brands w' = brands w.
Proof.
  intros Hok w' entry. subst w'.
  destruct (shareBriefConcept_ok env shareType shareSettings conceptId w Hok)
    as (_ & Hrows & Hother).
  rewrite Hrows.
  destruct (map_put_frame
              (fun c => String.eqb (BriefConcept.id c) conceptId)
              (BriefConcept.with_share_settings
                 (Some {[ randomUUID env := entry ]}))
              (brief_concepts w) (fun x => eq_refl)) as (Hout & Hin).
  split.
  { rewrite List.map_map.
    rewrite (List.map_ext _ BriefConcept.id); [reflexivity|].
    intros c. destruct (String.eqb (BriefConcept.id c) conceptId); reflexivity. }
  split.
  { intros c Hc. apply Hout. apply String.eqb_neq, Hc. }
  split.
  { intros c' Hc' Hid. apply String.eqb_eq in Hid.
    destruct (Hin c' Hid Hc') as (c & H1 & H2 & H3).
    exists c. apply String.eqb_eq in H2. auto. }
  split; [exact Hother | apply shareBriefConcept_brands].
Qed.

(** A link share of [concept-42] leaves [concept-43] in place. *)
Lemma shareBriefConcept_frame_witness :
  In Sample.teaser
    (brief_concepts
       (shareBriefConcept (Sample.env 600) "concept-42" ShareType.link
          Sample.request Sample.world).2).
Proof.
  apply (proj1 (proj2 (shareBriefConcept_frame (Sample.env 600) "concept-42"
                         ShareType.link Sample.request Sample.world eq_refl))
           Sample.teaser).
  - discriminate.
  - right. left. reflexivity.
Defined.

(** ** Issuing, then resolving *)

Lemma find_filter_head {A : Type} (f : A → bool) (l : list A) x :
  List.find f l = Some x → ∃ rest, List.filter f l = x :: rest.
Proof.
  induction l as [|y l IH]; simpl; [discriminate|].
  destruct (f y) eqn:E.
  - intros [= ->]. eauto.
  - exact IH.
Qed.

Lemma filter_head_true {A : Type} (f : A → bool) (l : list A) x rest :
  List.filter f l = x :: rest → f x = true.
Proof.
  intros H. assert (Hin : In x (List.filter f l)) by (rewrite H; left; reflexivity).
  apply filter_In in Hin. tauto.
Qed.

(** After the update, the rows that contain the new identifier are the
    rewritten rows of the owner's id, provided no other row held it. *)
Lemma batches_containing_issued (uuid batchId : string) (e : ShareSettings)
    (rows : list BriefBatch.t) :
  Forall (fun b => BriefBatch.id b ≠ batchId →
                   share_settings_at uuid (BriefBatch.share_settings b) = None)
    rows →
  List.filter (fun b => contains_share uuid (BriefBatch.share_settings b))
    (List.map (fun b => if String.eqb (BriefBatch.id b) batchId
                        then BriefBatch.with_share_settings (Some {[ uuid := e ]}) b
                        else b) rows)
  = List.map (BriefBatch.with_share_settings (Some {[ uuid := e ]}))
      (List.filter (fun b => String.eqb (BriefBatch.id b) batchId) rows).
Proof.
  induction 1 as [|b rows Hb _ IH]; simpl; [reflexivity|].
  destruct (String.eqb_spec (BriefBatch.id b) batchId) as [Heq|Hne]; simpl.
  - rewrite lookup_singleton_eq. simpl. rewrite IH. reflexivity.
  - destruct (contains_share uuid (BriefBatch.share_settings b)) eqn:E.
    + apply contains_share_at in E. rewrite (Hb Hne) in E.
      destruct E as [x Hx]. discriminate.
    + exact IH.
Qed.

Lemma concepts_containing_issued (uuid conceptId : string) (e : ShareSettings)
    (rows : list BriefConcept.t) :
  Forall (fun c => BriefConcept.id c ≠ conceptId →
                   share_settings_at uuid (BriefConcept.share_settings c) = None)
    rows →
  List.filter (fun c => contains_share uuid (BriefConcept.share_settings c))
    (List.map (fun c => if String.eqb (BriefConcept.id c) conceptId
                        then BriefConcept.with_share_settings (Some {[ uuid := e ]}) c
                        else c) rows)
  = List.map (BriefConcept.with_share_settings (Some {[ uuid := e ]}))
      (List.filter (fun c => String.eqb (BriefConcept.id c) conceptId) rows).
Proof.
  induction 1 as [|c rows Hc _ IH]; simpl; [reflexivity|].
  destruct (String.eqb_spec (BriefConcept.id c) conceptId) as [Heq|Hne]; simpl.
  - rewrite lookup_singleton_eq. simpl. rewrite IH. reflexivity.
  - destruct (contains_share uuid (BriefConcept.share_settings c)) eqn:E.
    + apply contains_share_at in E. rewrite (Hc Hne) in E.
      destruct E as [x Hx]. discriminate.
    + exact IH.
Qed.

(** X5.  A batch share round trip.  When [shareBriefBatch] succeeds for a
    batch that exists and the new identifier is held by no other batch,
    the public batch page for the returned identifier resolves to that
    batch: as long as the requested expiry has not passed it shows the
    batch with the requested permission, and once it has passed it
    reports the link as expired. *)
Theorem issued_batch_link_resolves env env' batchId shareType shareSettings w b0 :
  update_fault env = None →
  select_fault env' = None →
  concepts_fault env' = None →
  List.find (fun b => String.eqb (BriefBatch.id b) batchId) (brief_batches w)
  = Some b0 →
  Forall (fun b => BriefBatch.id b ≠ batchId →
                   share_settings_at (randomUUID env)
                     (BriefBatch.share_settings b) = None)
    (brief_batches w) →
  let page :=
    batch_page env' (randomUUID env)
      (shareBriefBatch env batchId shareType shareSettings w).2 in
  let owner :=
    BriefBatch.with_share_settings
      (Some {[ randomUUID env := settings_record env shareType shareSettings ]})
      b0 in
  (has_expired env' shareSettings = false →
   SharedBriefPage.error page = None
   ∧ SharedBriefPage.batch page = Some (join_brand (brands w) owner)
   ∧ SharedBriefPage.isEditable page = truthy (is_editable shareSettings)
   ∧ SharedBriefPage.render page = Content)
  ∧ (has_expired env' shareSettings = true →
     SharedBriefPage.error page = Some "This shared link has expired"
     ∧ SharedBriefPage.batch page = None
     ∧ SharedBriefPage.render page = AlertView "This shared link has expired").
Proof.
  intros Hok Hsel Hcon Hfind Hfresh page owner. subst page.
  destruct (shareBriefBatch_ok env shareType shareSettings batchId w Hok)
    as (_ & Hrows & _).
  destruct (find_filter_head _ _ _ Hfind) as (rest & Hhit).
  assert (Hfirst :
    batches_containing (randomUUID env)
      (shareBriefBatch env batchId shareType shareSettings w).2
    = owner :: List.map
                 (BriefBatch.with_share_settings
                    (Some {[ randomUUID env :=
                               settings_record env shareType shareSettings ]}))
                 rest).
  { unfold batches_containing. rewrite Hrows.
    rewrite (batches_containing_issued _ _ _ _ Hfresh), Hhit. reflexivity. }
  assert (Hentry :
    share_settings_at (randomUUID env) (BriefBatch.share_settings owner)
    = Some (settings_record env shareType shareSettings)).
  { simpl. apply lookup_singleton_eq. }
  rewrite <- (shareBriefBatch_brands env batchId shareType shareSettings w).
  split; intros Hexp.
  - exact (batch_resolves env' _ _ _ _ _ Hsel Hcon Hfirst Hentry Hexp).
  - exact (batch_expired env' _ _ _ _ _ Hsel Hfirst Hentry Hexp).
Qed.

(** Batch [batch-1] shared at time 600 and opened at time 700. *)
Lemma issued_batch_link_resolves_witness :
  SharedBriefPage.render
    (batch_page (Sample.env 700) "share-B"
       (shareBriefBatch (Sample.env 600) "batch-1" ShareType.link
          Sample.request Sample.world).2) = Content.
Proof.
  apply (proj1 (issued_batch_link_resolves (Sample.env 600) (Sample.env 700)
                  "batch-1" ShareType.link Sample.request Sample.world
                  Sample.spring eq_refl eq_refl eq_refl eq_refl
                  ltac:(repeat (constructor; [intros _; reflexivity|]);
                        constructor))).
  reflexivity.
Defined.

(** X6.  A concept share round trip: the same for [shareBriefConcept] and
    the public concept page. *)
Theorem issued_concept_link_resolves env env' conceptId shareType shareSettings w c0 :
  update_fault env = None →
  select_fault env' = None →
  List.find (fun c => String.eqb (BriefConcept.id c) conceptId)
    (brief_concepts w) = Some c0 →
  Forall (fun c => BriefConcept.id c ≠ conceptId →
                   share_settings_at (randomUUID env)
                     (BriefConcept.share_settings c) = None)
    (brief_concepts w) →
  let page :=
    concept_page env' (randomUUID env)
      (shareBriefConcept env conceptId shareType shareSettings w).2 in
  let owner :=
    BriefConcept.with_share_settings
      (Some {[ randomUUID env := settings_record env shareType shareSettings ]})
      c0 in
  (has_expired env' shareSettings = false →
   SharedConceptPage.error page = None
   ∧ SharedConceptPage.concept page = Some owner
   ∧ SharedConceptPage.render page = Content)
  ∧ (has_expired env' shareSettings = true →
     SharedConceptPage.error page = Some "This shared link has expired"
     ∧ SharedConceptPage.concept page = None
     ∧ SharedConceptPage.render page
       = AlertView "This shared link has expired").
Proof.
  intros Hok Hsel Hfind Hfresh page owner. subst page.
  destruct (shareBriefConcept_ok env shareType shareSettings conceptId w Hok)
    as (_ & Hrows & _).
  destruct (find_filter_head _ _ _ Hfind) as (rest & Hhit).
  assert (Hfirst :
    concepts_containing (randomUUID env)
      (shareBriefConcept env conceptId shareType shareSettings w).2
    = owner :: List.map
                 (BriefConcept.with_share_settings
                    (Some {[ randomUUID env :=
                               settings_record env shareType shareSettings ]}))
                 rest).
  { unfold concepts_containing. rewrite Hrows.
    rewrite (concepts_containing_issued _ _ _ _ Hfresh), Hhit. reflexivity. }
  assert (Hentry :
    share_settings_at (randomUUID env) (BriefConcept.share_settings owner)
    = Some (settings_record env shareType shareSettings)).
  { simpl. apply lookup_singleton_eq. }
  split; intros Hexp.
  - exact (concept_resolves env' _ _ _ _ _ Hsel Hfirst Hentry Hexp).
  - exact (concept_expired env' _ _ _ _ _ Hsel Hfirst Hentry Hexp).
Qed.

(** Concept [concept-42] shared at time 600 and opened at time 700. *)
Lemma issued_concept_link_resolves_witness :
  SharedConceptPage.render
    (concept_page (Sample.env 700) "share-B"
       (shareBriefConcept (Sample.env 600) "concept-42" ShareType.link
          Sample.request Sample.world).2) = Content.
Proof.
  apply (proj1 (issued_concept_link_resolves (Sample.env 600) (Sample.env 700)
                  "concept-42" ShareType.link Sample.request Sample.world
                  Sample.hook eq_refl eq_refl eq_refl
                  ltac:(repeat (constructor; [intros _; reflexivity|]);
                        constructor))).
  reflexivity.
Defined.

(** Each issuer leaves the other table alone, whether or not its update
    goes through. *)
Lemma shareBriefConcept_batches env conceptId shareType shareSettings w :
  brief_batches (shareBriefConcept env conceptId shareType shareSettings w).2
  = brief_batches w.
Proof.
  destruct (update_fault env) as [err|] eqn:E.
  - unfold shareBriefConcept, update_concept_share_settings. rewrite E.
    reflexivity.
  - apply (shareBriefConcept_ok env shareType shareSettings conceptId w E).
Qed.

Lemma shareBriefBatch_concepts env batchId shareType shareSettings w :
  brief_concepts (shareBriefBatch env batchId shareType shareSettings w).2
  = brief_concepts w.
Proof.
  destruct (update_fault env) as [err|] eqn:E.
  - unfold shareBriefBatch, update_batch_share_settings. rewrite E.
    reflexivity.
  - apply (shareBriefBatch_ok env shareType shareSettings batchId w E).
Qed.

(** X7.  Links are bound to their route.  The identifier returned by
    [shareBriefConcept] is not found by the batch page, and the one
    returned by [shareBriefBatch] is not found by the concept page, as
    long as no row of the other table already held it; this does not
    depend on whether the update went through. *)
Theorem link_is_bound_to_its_route env env' ownerId shareType shareSettings w :
  select_fault env' = None →
  (Forall (fun b => share_settings_at (randomUUID env)
                      (BriefBatch.share_settings b) = None)
     (brief_batches w) →
   SharedBriefPage.error
     (batch_page env' (randomUUID env)
        (shareBriefConcept env ownerId shareType shareSettings w).2)
   = Some "Shared content not found or has expired")
  ∧ (Forall (fun c => share_settings_at (randomUUID env)
                        (BriefConcept.share_settings c) = None)
       (brief_concepts w) →
     SharedConceptPage.error
       (concept_page env' (randomUUID env)
          (shareBriefBatch env ownerId shareType shareSettings w).2)
     = Some "Shared concept not found or has expired").
Proof.
  intros Hsel. split; intros Hfresh.
  - apply batch_not_found; [exact Hsel|].
    apply batches_containing_none.
    rewrite shareBriefConcept_batches. exact Hfresh.
  - apply concept_not_found; [exact Hsel|].
    apply concepts_containing_none.
    rewrite shareBriefBatch_concepts. exact Hfresh.
Qed.

(** The link of concept [concept-42] opened under the batch route. *)
Lemma link_is_bound_to_its_route_witness :
  SharedBriefPage.error
    (batch_page (Sample.env 700) "share-B"
       (shareBriefConcept (Sample.env 600) "concept-42" ShareType.link
          Sample.request Sample.world).2)
  = Some "Shared content not found or has expired".
Proof.
  apply (proj1 (link_is_bound_to_its_route (Sample.env 600) (Sample.env 700)
                  "concept-42" ShareType.link Sample.request Sample.world
                  eq_refl)).
  repeat constructor.
Defined.

(** ** Further properties of the resolvers *)

(** The message shown for a thrown error is never empty. *)
Lemma catch_message_truthy err :
  truthy_string (Some (catch_message err)) = true.
Proof.
  unfold catch_message.
  destruct (String.eqb (Postgrest.message err) "") eqn:E; simpl;
    [reflexivity | rewrite E; reflexivity].
Qed.

Lemma render_batch_alert p msg :
  SharedBriefPage.loading p = false →
  SharedBriefPage.error p = Some msg →
  truthy_string (Some msg) = true →
  SharedBriefPage.render p = AlertView msg.
Proof.
  intros Hl He Ht. unfold SharedBriefPage.render.
  rewrite Hl, He, Ht. reflexivity.
Qed.

Lemma render_concept_alert p msg :
  SharedConceptPage.loading p = false →
  SharedConceptPage.error p = Some msg →
  truthy_string (Some msg) = true →
  SharedConceptPage.render p = AlertView msg.
Proof.
  intros Hl He Ht. unfold SharedConceptPage.render.
  rewrite Hl, He, Ht. reflexivity.
Qed.

(** X8.  When the containment query is answered with an error, each page
    shows that error's message, or "Failed to load shared content" when
    the message is empty, and no batch or concept is set. *)
Theorem query_failure_is_reported env shareId w err :
  select_fault env = Some err →
  (SharedBriefPage.error (batch_page env shareId w) = Some (catch_message err)
   ∧ SharedBriefPage.batch (batch_page env shareId w) = None
   ∧ SharedBriefPage.render (batch_page env shareId w)
     = AlertView (catch_message err))
  ∧ (SharedConceptPage.error (concept_page env shareId w)
     = Some (catch_message err)
     ∧ SharedConceptPage.concept (concept_page env shareId w) = None
     ∧ SharedConceptPage.render (concept_page env shareId w)
       = AlertView (catch_message err))
  ∧ (Postgrest.message err = "" →
     catch_message err = "Failed to load shared content")
  ∧ (Postgrest.message err ≠ "" → catch_message err = Postgrest.message err).
Proof.
  intros Hdown. split; [|split; [|split]].
  - unfold batch_page, SharedBriefPage.fetchSharedBatch,
      select_batches_containing.
    rewrite Hdown. simpl.
    repeat split. apply render_batch_alert;
      [reflexivity | reflexivity | apply catch_message_truthy].
  - unfold concept_page, SharedConceptPage.fetchSharedConcept,
      select_concepts_containing.
    rewrite Hdown. simpl.
    repeat split. apply render_concept_alert;
      [reflexivity | reflexivity | apply catch_message_truthy].
  - intros Hempty. unfold catch_message. rewrite Hempty. reflexivity.
  - intros Hmsg. unfold catch_message.
    apply String.eqb_neq in Hmsg. rewrite Hmsg. reflexivity.
Qed.

(** The containment query fails with an empty message. *)
Lemma query_failure_is_reported_witness :
  SharedBriefPage.render (batch_page (Outage.select_down 600) "share-A"
                            Sample.world)
  = AlertView "Failed to load shared content"
  ∧ SharedConceptPage.render (concept_page (Outage.select_down 600) "share-A"
                                Sample.world)
    = AlertView "Failed to load shared content".
Proof.
  split.
  - apply (proj1 (query_failure_is_reported (Outage.select_down 600) "share-A"
                    Sample.world Outage.silent eq_refl)).
  - apply (proj1 (proj2 (query_failure_is_reported (Outage.select_down 600)
                           "share-A" Sample.world Outage.silent eq_refl))).
Defined.

(** X9.  When the share resolves on the batch page but the query for the
    batch's concepts is answered with an error, the batch and the
    permission flag have already been set, the concept list stays empty,
    and the page shows the error's message in place of the batch. *)
Theorem concepts_failure_is_reported env shareId w b rest e err :
  select_fault env = None →
  concepts_fault env = Some err →
  batches_containing shareId w = b :: rest →
  share_settings_at shareId (BriefBatch.share_settings b) = Some e →
  has_expired env e = false →
  SharedBriefPage.batch (batch_page env shareId w)
  = Some (join_brand (brands w) b)
  ∧ SharedBriefPage.isEditable (batch_page env shareId w)
    = truthy (is_editable e)
  ∧ SharedBriefPage.concepts (batch_page env shareId w) = []
  ∧ SharedBriefPage.error (batch_page env shareId w)
    = Some (catch_message err)
  ∧ SharedBriefPage.render (batch_page env shareId w)
    = AlertView (catch_message err).
Proof.
  intros Hok Hdown Hfirst He Hlive. unfold batch_page.
  rewrite (fetchSharedBatch_answered _ _ _ _ Hok), Hfirst.
  unfold SharedBriefPage.after_query, select_concepts_of_batch. simpl.
  rewrite He, Hlive, Hdown. simpl.
  destruct (find _ (brands w)); simpl;
    (repeat (split; [reflexivity|]);
     apply render_batch_alert;
     [reflexivity | reflexivity | apply catch_message_truthy]).
Qed.

(** The link [share-A] resolves while the concepts query fails. *)
Lemma concepts_failure_is_reported_witness :
  SharedBriefPage.render (batch_page (Outage.concepts_down 600) "share-A"
                            Sample.world)
  = AlertView "Bad gateway".
Proof.
  apply (concepts_failure_is_reported (Outage.concepts_down 600) "share-A"
           Sample.world Sample.spring [] Sample.settings_A Outage.gateway
           eq_refl eq_refl ltac:(vm_compute; reflexivity)
           ltac:(vm_compute; reflexivity) eq_refl).
Defined.

(** X10.  Whatever the world, the identifier, the faults and the state
    the page was in, the effect ends with [loading] false: neither page is
    left on its spinner. *)
Theorem effect_always_stops_loading env shareId w :
  (∀ p,
      SharedBriefPage.loading
        (SharedBriefPage.fetchSharedBatch env shareId w p).2 = false
      ∧ SharedBriefPage.render
          (SharedBriefPage.fetchSharedBatch env shareId w p).2 ≠ Spinner)
  ∧ (∀ p,
      SharedConceptPage.loading
        (SharedConceptPage.fetchSharedConcept env shareId w p).2 = false
      ∧ SharedConceptPage.render
          (SharedConceptPage.fetchSharedConcept env shareId w p).2 ≠ Spinner).
Proof.
  split; intros p.
  - assert (Hl : SharedBriefPage.loading
                   (SharedBriefPage.fetchSharedBatch env shareId w p).2 = false).
    { unfold SharedBriefPage.fetchSharedBatch, select_batches_containing.
      destruct (select_fault env); simpl; [reflexivity|].
      destruct (batches_containing shareId w) as [|b rest]; simpl;
        [reflexivity|].
      destruct (share_settings_at shareId _) as [e|]; [|reflexivity].
      destruct (has_expired env e); [reflexivity|].
      unfold select_concepts_of_batch.
      destruct (concepts_fault env); reflexivity. }
    split; [exact Hl|].
    unfold SharedBriefPage.render. rewrite Hl.
    destruct (_ || _); discriminate.
  - assert (Hl : SharedConceptPage.loading
                   (SharedConceptPage.fetchSharedConcept env shareId w p).2
                 = false).
    { unfold SharedConceptPage.fetchSharedConcept, select_concepts_containing.
      destruct (select_fault env); simpl; [reflexivity|].
      destruct (concepts_containing shareId w) as [|c rest]; simpl;
        [reflexivity|].
      destruct (share_settings_at shareId _) as [e|]; [|reflexivity].
      destruct (has_expired env e); reflexivity. }
    split; [exact Hl|].
    unfold SharedConceptPage.render. rewrite Hl.
    destruct (_ || _); discriminate.
Qed.

(** X11.  Content is shown only for a live entry.  If a page, after its
    effect has run on mount, shows the content, then the containment
    query was answered, its first row holds an entry under [shareId]
    that has not expired, and that row is what the page shows. *)
Theorem content_requires_live_entry env shareId w :
  (SharedBriefPage.render (batch_page env shareId w) = Content →
   ∃ b rest e,
     select_fault env = None
     ∧ batches_containing shareId w = b :: rest
     ∧ share_settings_at shareId (BriefBatch.share_settings b) = Some e
     ∧ has_expired env e = false
     ∧ SharedBriefPage.batch (batch_page env shareId w)
       = Some (join_brand (brands w) b))
  ∧ (SharedConceptPage.render (concept_page env shareId w) = Content →
     ∃ c rest e,
       select_fault env = None
       ∧ concepts_containing shareId w = c :: rest
       ∧ share_settings_at shareId (BriefConcept.share_settings c) = Some e
       ∧ has_expired env e = false
       ∧ SharedConceptPage.concept (concept_page env shareId w) = Some c).
Proof.
  split.
  - unfold batch_page, SharedBriefPage.fetchSharedBatch,
      select_batches_containing.
    destruct (select_fault env) as [err|] eqn:Hsel; simpl.
    { rewrite (render_batch_alert _ (catch_message err));
        [discriminate | reflexivity | reflexivity | apply catch_message_truthy]. }
    destruct (batches_containing shareId w) as [|b rest] eqn:Hrows; simpl;
      [discriminate|].
    destruct (share_settings_at shareId (BriefBatch.share_settings b))
      as [e|] eqn:He; [|discriminate].
    destruct (has_expired env e) eqn:Hexp; [discriminate|].
    unfold select_concepts_of_batch.
    destruct (concepts_fault env) as [err|]; simpl.
    { rewrite (render_batch_alert _ (catch_message err));
        [discriminate | reflexivity | | apply catch_message_truthy].
      destruct (find _ (brands w)); reflexivity. }
    intros _. exists b, rest, e.
    split; [reflexivity|]. split; [reflexivity|]. split; [exact He|].
    split; [exact Hexp | reflexivity].
  - unfold concept_page, SharedConceptPage.fetchSharedConcept,
      select_concepts_containing.
    destruct (select_fault env) as [err|] eqn:Hsel; simpl.
    { rewrite (render_concept_alert _ (catch_message err));
        [discriminate | reflexivity | reflexivity | apply catch_message_truthy]. }
    destruct (concepts_containing shareId w) as [|c rest] eqn:Hrows; simpl;
      [discriminate|].
    destruct (share_settings_at shareId (BriefConcept.share_settings c))
      as [e|] eqn:He; [|discriminate].
    destruct (has_expired env e) eqn:Hexp; [discriminate|].
    intros _. exists c, rest, e.
    split; [reflexivity|]. split; [reflexivity|]. split; [exact He|].
    split; [exact Hexp | reflexivity].
Qed.

(** The live sample link [share-A] on both pages. *)
Lemma content_requires_live_entry_witness :
  (∃ b rest e,
      select_fault (Sample.env 600) = None
      ∧ batches_containing "share-A" Sample.world = b :: rest
      ∧ share_settings_at "share-A" (BriefBatch.share_settings b) = Some e
      ∧ has_expired (Sample.env 600) e = false
      ∧ SharedBriefPage.batch (batch_page (Sample.env 600) "share-A" Sample.world)
        = Some (join_brand (brands Sample.world) b))
  ∧ (∃ c rest e,
        select_fault (Sample.env 600) = None
        ∧ concepts_containing "share-A" Sample.world = c :: rest
        ∧ share_settings_at "share-A" (BriefConcept.share_settings c) = Some e
        ∧ has_expired (Sample.env 600) e = false
        ∧ SharedConceptPage.concept
            (concept_page (Sample.env 600) "share-A" Sample.world) = Some c).
Proof.
  split.
  - apply (proj1 (content_requires_live_entry (Sample.env 600) "share-A"
                    Sample.world)).
    vm_compute. reflexivity.
  - apply (proj2 (content_requires_live_entry (Sample.env 600) "share-A"
                    Sample.world)).
    vm_compute. reflexivity.
Defined.

(** X12.  The guard "Share settings not found" cannot fire behind the
    containment query: every row the query returns has the identifier as
    a key, so when the backend answers its queries neither page ever
    reports that message. *)
Theorem settings_guard_is_unreachable env shareId w :
  select_fault env = None →
  (concepts_fault env = None →
   SharedBriefPage.error (batch_page env shareId w)
   ≠ Some "Share settings not found")
  ∧ SharedConceptPage.error (concept_page env shareId w)
    ≠ Some "Share settings not found".
Proof.
  intros Hsel. split.
  - intros Hcon. unfold batch_page.
    rewrite (fetchSharedBatch_answered _ _ _ _ Hsel).
    destruct (batches_containing shareId w) as [|b rest] eqn:Hrows; simpl;
      [discriminate|].
    pose proof (filter_head_true _ _ _ _ Hrows) as Hhas.
    apply contains_share_at in Hhas. destruct Hhas as [e He].
    rewrite He. destruct (has_expired env e); [discriminate|].
    unfold select_concepts_of_batch. rewrite Hcon. simpl.
    destruct (find _ (brands w)); discriminate.
  - unfold concept_page.
    rewrite (fetchSharedConcept_answered _ _ _ _ Hsel).
    destruct (concepts_containing shareId w) as [|c rest] eqn:Hrows; simpl;
      [discriminate|].
    pose proof (filter_head_true _ _ _ _ Hrows) as Hhas.
    apply contains_share_at in Hhas. destruct Hhas as [e He].
    rewrite He. destruct (has_expired env e); discriminate.
Qed.

(** On the sample world the guard does not fire. *)
Lemma settings_guard_is_unreachable_witness :
  SharedBriefPage.error (batch_page (Sample.env 600) "share-A" Sample.world)
  ≠ Some "Share settings not found"
  ∧ SharedConceptPage.error
      (concept_page (Sample.env 600) "share-T" Sample.world)
    ≠ Some "Share settings not found".
Proof.
  split.
  - apply (proj1 (settings_guard_is_unreachable (Sample.env 600) "share-A"
                    Sample.world eq_refl) eq_refl).
  - apply (proj2 (settings_guard_is_unreachable (Sample.env 600) "share-T"
                    Sample.world eq_refl)).
Defined.

(** X13.  An expiry that cannot be read does not expire.  When the entry
    of the first row has an [expires_at] that is the empty string, or a
    string from which no valid date is built, both pages show the content
    at any current time. *)
Theorem unreadable_expiry_never_expires env shareId w :
  select_fault env = None →
  concepts_fault env = None →
  (∀ b rest e,
      batches_containing shareId w = b :: rest →
      share_settings_at shareId (BriefBatch.share_settings b) = Some e →
      expires_at e = exp_empty ∨ expires_at e = exp_date InvalidDate →
      SharedBriefPage.error (batch_page env shareId w) = None
      ∧ SharedBriefPage.render (batch_page env shareId w) = Content)
  ∧ (∀ c rest e,
      concepts_containing shareId w = c :: rest →
      share_settings_at shareId (BriefConcept.share_settings c) = Some e →
      expires_at e = exp_empty ∨ expires_at e = exp_date InvalidDate →
      SharedConceptPage.error (concept_page env shareId w) = None
      ∧ SharedConceptPage.render (concept_page env shareId w) = Content).
Proof.
  intros Hsel Hcon.
  assert (Hlive : ∀ e, expires_at e = exp_empty
                       ∨ expires_at e = exp_date InvalidDate →
                       has_expired env e = false).
  { intros e [He|He]; unfold has_expired; rewrite He; reflexivity. }
  split.
  - intros b rest e Hfirst He Hbad.
    destruct (batch_resolves env shareId w b rest e Hsel Hcon Hfirst He
                (Hlive e Hbad)) as (H1 & _ & _ & H4).
    auto.
  - intros c rest e Hfirst He Hbad.
    destruct (concept_resolves env shareId w c rest e Hsel Hfirst He
                (Hlive e Hbad)) as (H1 & _ & H3).
    auto.
Qed.

(** The link [share-X], whose expiry is not a date, opened late. *)
Lemma unreadable_expiry_never_expires_witness :
  SharedBriefPage.render (batch_page (Sample.env 99999999) "share-X" Odd.world)
  = Content
  ∧ SharedConceptPage.render
      (concept_page (Sample.env 99999999) "share-X" Odd.world) = Content.
Proof.
  split.
  - apply (proj1 (unreadable_expiry_never_expires (Sample.env 99999999)
                    "share-X" Odd.world eq_refl eq_refl)
             Odd.autumn [] Odd.settings_X);
      [vm_compute; reflexivity | vm_compute; reflexivity | right; reflexivity].
  - apply (proj2 (unreadable_expiry_never_expires (Sample.env 99999999)
                    "share-X" Odd.world eq_refl eq_refl)
             Odd.outro [] Odd.settings_X);
      [vm_compute; reflexivity | vm_compute; reflexivity | right; reflexivity].
Defined.

Lemma has_expired_mono env env' e :
  (now env ≤ now env')%Z →
  has_expired env e = true → has_expired env' e = true.
Proof.
  unfold has_expired. intros Hle.
  destruct (expires_at e) as [| | |[t|]]; simpl; try discriminate.
  intros Ht. apply Z.ltb_lt in Ht. apply Z.ltb_lt. lia.
Qed.

(** X14.  Expiry is one-way.  If the entry of the first row has expired
    at some time, then at every later time both pages report the link as
    expired (the table being the same and the containment query
    answering). *)
Theorem expired_stays_expired env env' shareId w :
  select_fault env' = None →
  (now env ≤ now env')%Z →
  (∀ b rest e,
      batches_containing shareId w = b :: rest →
      share_settings_at shareId (BriefBatch.share_settings b) = Some e →
      has_expired env e = true →
      SharedBriefPage.error (batch_page env' shareId w)
      = Some "This shared link has expired"
      ∧ SharedBriefPage.render (batch_page env' shareId w)
        = AlertView "This shared link has expired")
  ∧ (∀ c rest e,
      concepts_containing shareId w = c :: rest →
      share_settings_at shareId (BriefConcept.share_settings c) = Some e →
      has_expired env e = true →
      SharedConceptPage.error (concept_page env' shareId w)
      = Some "This shared link has expired"
      ∧ SharedConceptPage.render (concept_page env' shareId w)
        = AlertView "This shared link has expired").
Proof.
  intros Hsel Hle. split.
  - intros b rest e Hfirst He Hexp.
    destruct (batch_expired env' shareId w b rest e Hsel Hfirst He
                (has_expired_mono env env' e Hle Hexp)) as (H1 & _ & H3).
    auto.
  - intros c rest e Hfirst He Hexp.
    destruct (concept_expired env' shareId w c rest e Hsel Hfirst He
                (has_expired_mono env env' e Hle Hexp)) as (H1 & _ & H3).
    auto.
Qed.

(** The link [share-T], expired at 1001, opened at 5000. *)
Lemma expired_stays_expired_witness :
  SharedBriefPage.render (batch_page (Sample.env 5000) "share-T" Sample.world)
  = AlertView "This shared link has expired"
  ∧ SharedConceptPage.render
      (concept_page (Sample.env 5000) "share-T" Sample.world)
    = AlertView "This shared link has expired".
Proof.
  split.
  - apply (proj1 (expired_stays_expired (Sample.env 1001) (Sample.env 5000)
                    "share-T" Sample.world eq_refl ltac:(simpl; lia))
             Sample.summer [] Sample.settings_T);
      vm_compute; reflexivity.
  - apply (proj2 (expired_stays_expired (Sample.env 1001) (Sample.env 5000)
                    "share-T" Sample.world eq_refl ltac:(simpl; lia))
             Sample.teaser [] Sample.settings_T);
      vm_compute; reflexivity.
Defined.

(** ** The concepts of a batch *)

Lemma insert_by_order_perm c l :
  Permutation (insert_by_order c l) (c :: l).
Proof.
  induction l as [|d l IH]; simpl; [reflexivity|].
  destruct (_ <=? _)%Z; [reflexivity|].
  rewrite IH. apply perm_swap.
Qed.

Lemma order_ascending_perm l : Permutation (order_ascending l) l.
Proof.
  unfold order_ascending.
  induction l as [|c l IH]; simpl; [reflexivity|].
  rewrite insert_by_order_perm. constructor. exact IH.
Qed.

Lemma insert_by_order_sorted c l :
  Sorted in_order l → Sorted in_order (insert_by_order c l).
Proof.
  induction 1 as [|d l Hs IH Hd]; simpl.
  - repeat constructor.
  - destruct (Z.leb_spec (BriefConcept.order_in_batch c)
                (BriefConcept.order_in_batch d)) as [Hle|Hgt].
    + constructor; [constructor; assumption|]. constructor. exact Hle.
    + constructor; [exact IH|].
      destruct l as [|d' l']; simpl.
      * constructor. unfold in_order. lia.
      * destruct (_ <=? _)%Z.
        -- constructor. unfold in_order. lia.
        -- constructor. inversion Hd; assumption.
Qed.

Lemma order_ascending_sorted l : StronglySorted in_order (order_ascending l).
Proof.
  apply Sorted_StronglySorted.
  - intros x y z Hxy Hyz. unfold in_order in *. lia.
  - unfold order_ascending.
    induction l as [|c l IH]; simpl; [constructor|].
    apply insert_by_order_sorted, IH.
Qed.

(** What the ordered query for the concepts of a batch returns. *)
Lemma concepts_of_batch_spec batchId w :
  let l :=
    order_ascending
      (List.filter
         (fun c => String.eqb (BriefConcept.brief_batch_id c) batchId)
         (brief_concepts w)) in
  StronglySorted in_order l
  ∧ (∀ c, In c l ↔
          In c (brief_concepts w) ∧ BriefConcept.brief_batch_id c = batchId).
Proof.
  intros l. split; [apply order_ascending_sorted|].
  intros c. subst l. split.
  - intros Hin.
    apply (Permutation_in _ (order_ascending_perm _)) in Hin.
    apply filter_In in Hin as [H1 H2]. apply String.eqb_eq in H2. auto.
  - intros [H1 H2].
    apply (Permutation_in _ (Permutation_sym (order_ascending_perm _))).
    apply filter_In. split; [exact H1 | apply String.eqb_eq, H2].
Qed.

(** X15.  [getBriefConcepts] returns exactly the concepts of the given
    batch, each as often as the table holds it, in ascending
    [order_in_batch]; it changes no table; and when the query is answered
    with an error it throws that error's message. *)
Theorem getBriefConcepts_in_order batchId w :
  (∃ l,
      (getBriefConcepts batchId None w).1 = Returns l
      ∧ Permutation l
          (List.filter
             (fun c => String.eqb (BriefConcept.brief_batch_id c) batchId)
             (brief_concepts w))
      ∧ StronglySorted in_order l
      ∧ (∀ c, In c l ↔
              In c (brief_concepts w)
              ∧ BriefConcept.brief_batch_id c = batchId))
  ∧ (∀ fault,
        brief_concepts (getBriefConcepts batchId fault w).2 = brief_concepts w
        ∧ brief_batches (getBriefConcepts batchId fault w).2 = brief_batches w)
  ∧ (∀ err,
        (getBriefConcepts batchId (Some err) w).1
        = Throws (Postgrest.message err)).
Proof.
  split; [|split].
  - eexists. split; [reflexivity|]. simpl.
    split; [apply order_ascending_perm|].
    apply concepts_of_batch_spec.
  - intros [err|]; split; reflexivity.
  - intros err. reflexivity.
Qed.

(** X16.  The concepts the public batch page shows for a resolved share
    are the ones [getBriefConcepts] returns for the resolved batch: the
    concepts whose [brief_batch_id] is that batch's id, in ascending
    [order_in_batch]. *)
Theorem batch_page_shows_ordered_concepts env shareId w b rest e :
  select_fault env = None →
  concepts_fault env = None →
  batches_containing shareId w = b :: rest →
  share_settings_at shareId (BriefBatch.share_settings b) = Some e →
  has_expired env e = false →
  (getBriefConcepts (BriefBatch.id b) None w).1
  = Returns (SharedBriefPage.concepts (batch_page env shareId w))
  ∧ StronglySorted in_order (SharedBriefPage.concepts (batch_page env shareId w))
  ∧ (∀ c, In c (SharedBriefPage.concepts (batch_page env shareId w)) ↔
          In c (brief_concepts w)
          ∧ BriefConcept.brief_batch_id c = BriefBatch.id b).
Proof.
  intros Hsel Hcon Hfirst He Hlive.
  assert (Hshown :
    SharedBriefPage.concepts (batch_page env shareId w)
    = order_ascending
        (List.filter
           (fun c => String.eqb (BriefConcept.brief_batch_id c) (BriefBatch.id b))
           (brief_concepts w))).
  { unfold batch_page.
    rewrite (fetchSharedBatch_answered _ _ _ _ Hsel), Hfirst.
    unfold SharedBriefPage.after_query, select_concepts_of_batch. simpl.
    rewrite He, Hlive, Hcon. reflexivity. }
  rewrite Hshown. split; [reflexivity|].
  apply concepts_of_batch_spec.
Qed.

(** Batch [batch-1] shows the teaser (order 1) before the hook (order 2). *)
Lemma batch_page_shows_ordered_concepts_witness :
  (getBriefConcepts "batch-1" None Sample.world).1
  = Returns (SharedBriefPage.concepts
               (batch_page (Sample.env 600) "share-A" Sample.world))
  ∧ SharedBriefPage.concepts (batch_page (Sample.env 600) "share-A" Sample.world)
    = [Sample.teaser; Sample.hook].
Proof.
  split.
  - apply (batch_page_shows_ordered_concepts (Sample.env 600) "share-A"
             Sample.world Sample.spring [] Sample.settings_A eq_refl eq_refl
             ltac:(vm_compute; reflexivity) ltac:(vm_compute; reflexivity)
             eq_refl).
  - vm_compute. reflexivity.
Defined.

(** ** The object key of an uploaded file *)

Lemma dot_free_cons c s :
  dot_free (String c s) ↔ c ≠ "."%char ∧ dot_free s.
Proof.
  unfold dot_free. simpl. split.
  - intros H. split; [intros ->; apply H; left; reflexivity|].
    intros Hin. apply H. right. exact Hin.
  - intros [Hc Hs] [Heq|Hin]; [exact (Hc Heq) | exact (Hs Hin)].
Qed.

Lemma split_dot_cons s : ∃ piece pieces, split_dot s = piece :: pieces.
Proof.
  destruct s as [|c rest]; simpl; [eauto|].
  destruct (Ascii.eqb c "."); [eauto|].
  destruct (split_dot rest); eauto.
Qed.

(** A name without a dot is a single piece. *)
Lemma split_dot_dot_free s : dot_free s → split_dot s = [s].
Proof.
  induction s as [|c rest IH]; simpl; [reflexivity|].
  intros Hfree. apply dot_free_cons in Hfree as [Hc Hrest].
  apply Ascii.eqb_neq in Hc. rewrite Hc, (IH Hrest). reflexivity.
Qed.

(** No piece has a dot in it. *)
Lemma split_dot_pieces s : Forall dot_free (split_dot s).
Proof.
  induction s as [|c rest IH]; simpl.
  - constructor; [|constructor]. intros [].
  - destruct (Ascii.eqb_spec c ".") as [Heq|Hne].
    + constructor; [intros []|exact IH].
    + destruct (split_dot rest) as [|piece pieces].
      * constructor; [|constructor].
        apply dot_free_cons. split; [exact Hne | intros []].
      * inversion IH as [|? ? Hp Hps]; subst.
        constructor; [|exact Hps].
        apply dot_free_cons. split; assumption.
Qed.

(** The last piece of a name is the last piece of what follows any of its
    dots. *)
Lemma pop_split_dot_after base ext :
  pop (split_dot (base +:+ String "." ext)) = pop (split_dot ext).
Proof.
  unfold pop.
  assert (H : ∃ p q qs,
             split_dot (base +:+ String "." ext) = p :: q :: qs
             ∧ last (q :: qs) = last (split_dot ext)).
  { induction base as [|c base IH]; simpl.
    - destruct (split_dot_cons ext) as (q & qs & Hq). rewrite Hq. eauto.
    - destruct IH as (p & q & qs & Hsplit & Hlast). rewrite Hsplit.
      destruct (Ascii.eqb c "."); eauto. }
  destruct H as (p & q & qs & Hsplit & Hlast).
  rewrite Hsplit, <- Hlast. reflexivity.
Qed.

(** X17.  The key [uploadMedia] stores a file under is the user id, a
    slash, the generated identifier, a dot, and the part of the file name
    after its last dot.  A file name without any dot is used whole as
    that last part, and in every case the part has no dot in it. *)
Theorem uploadMedia_path_extension userId uuid :
  (∀ base ext,
      dot_free ext →
      uploadMedia_filePath userId uuid (base +:+ "." +:+ ext)
      = userId +:+ "/" +:+ uuid +:+ "." +:+ ext)
  ∧ (∀ file_name,
        dot_free file_name →
        uploadMedia_filePath userId uuid file_name
        = userId +:+ "/" +:+ uuid +:+ "." +:+ file_name)
  ∧ (∀ file_name, ∃ ext,
        pop (split_dot file_name) = Some ext
        ∧ dot_free ext
        ∧ uploadMedia_filePath userId uuid file_name
          = userId +:+ "/" +:+ uuid +:+ "." +:+ ext).
Proof.
  split; [|split].
  - intros base ext Hfree. unfold uploadMedia_filePath.
    change ("." +:+ ext) with (String "." ext).
    rewrite pop_split_dot_after, (split_dot_dot_free _ Hfree). reflexivity.
  - intros file_name Hfree. unfold uploadMedia_filePath.
    rewrite (split_dot_dot_free _ Hfree). reflexivity.
  - intros file_name. unfold uploadMedia_filePath, pop.
    pose proof (split_dot_pieces file_name) as Hpieces.
    destruct (split_dot_cons file_name) as (p & ps & Hsplit).
    rewrite Hsplit in *.
    destruct (last (p :: ps)) as [ext|] eqn:Hlast.
    + exists ext. split; [reflexivity|]. split; [|reflexivity].
      apply last_Some in Hlast as (l' & Hl').
      rewrite Hl' in Hpieces. apply Forall_app in Hpieces as [_ Hx].
      inversion Hx; assumption.
    + apply last_None in Hlast. discriminate.
Qed.

(** A file with two dots in its name, and one with none. *)
Lemma uploadMedia_path_extension_witness :
  uploadMedia_filePath "user-1" "id-9" "clip.final.mp4" = "user-1/id-9.mp4"
  ∧ uploadMedia_filePath "user-1" "id-9" "README" = "user-1/id-9.README".
Proof.
  split.
  - apply (proj1 (uploadMedia_path_extension "user-1" "id-9")
             "clip.final" "mp4").
    unfold dot_free. simpl. intros [H|[H|[H|[]]]]; discriminate.
  - apply (proj1 (proj2 (uploadMedia_path_extension "user-1" "id-9")) "README").
    unfold dot_free. simpl.
    intros [H|[H|[H|[H|[H|[H|[]]]]]]]; discriminate.
Defined.

(** ** What a failed resolution leaves behind, and the brand shown *)

(** X18.  What the page keeps of a link that is unknown or expired.  When
    the containment query answers and returns no row, or a first row
    whose entry has expired, the page state holds no batch, brand or
    concept, its concept list is empty, its permission flag is off, and
    the containment query is the only request issued: the concepts of
    the batch are not fetched.  This is a statement about the page state
    and the requests only.  The expiry test runs on the rows the query
    has returned: for an expired link the response of the containment
    query carries the matching rows, with their brand and their whole
    [share_settings]. *)
Theorem failed_resolution_keeps_no_state env shareId w :
  select_fault env = None →
  (batches_containing shareId w = []
   ∨ (∃ b rest e,
         batches_containing shareId w = b :: rest
         ∧ share_settings_at shareId (BriefBatch.share_settings b) = Some e
         ∧ has_expired env e = true) →
   SharedBriefPage.batch (batch_page env shareId w) = None
   ∧ SharedBriefPage.brand (batch_page env shareId w) = None
   ∧ SharedBriefPage.concepts (batch_page env shareId w) = []
   ∧ SharedBriefPage.isEditable (batch_page env shareId w) = false
   ∧ requests
       (SharedBriefPage.fetchSharedBatch env shareId w
          SharedBriefPage.initial).1
     = (requests w ++ [Select "brief_batches"])%list)
  ∧ (concepts_containing shareId w = []
     ∨ (∃ c rest e,
           concepts_containing shareId w = c :: rest
           ∧ share_settings_at shareId (BriefConcept.share_settings c) = Some e
           ∧ has_expired env e = true) →
     SharedConceptPage.concept (concept_page env shareId w) = None
     ∧ requests
         (SharedConceptPage.fetchSharedConcept env shareId w
            SharedConceptPage.initial).1
       = (requests w ++ [Select "brief_concepts"])%list)
  ∧ (∀ b rest e,
        batches_containing shareId w = b :: rest →
        share_settings_at shareId (BriefBatch.share_settings b) = Some e →
        has_expired env e = true →
        Postgrest.data
          (select_batches_containing shareId (select_fault env) w).1
        = Some (join_brand (brands w) b
                :: List.map (join_brand (brands w)) rest)
        ∧ share_settings_at shareId
            (BriefBatch.share_settings (row (join_brand (brands w) b)))
          = Some e)
  ∧ (∀ c rest e,
        concepts_containing shareId w = c :: rest →
        share_settings_at shareId (BriefConcept.share_settings c) = Some e →
        has_expired env e = true →
        Postgrest.data
          (select_concepts_containing shareId (select_fault env) w).1
        = Some (c :: rest)).
Proof.
  intros Hsel. split; [|split; [|split]].
  - unfold batch_page. rewrite (fetchSharedBatch_answered _ _ _ _ Hsel).
    intros [Hnone|(b & rest & e & Hfirst & He & Hexp)].
    + rewrite Hnone. repeat split.
    + rewrite Hfirst. unfold SharedBriefPage.after_query. simpl.
      rewrite He, Hexp. repeat split.
  - unfold concept_page. rewrite (fetchSharedConcept_answered _ _ _ _ Hsel).
    intros [Hnone|(c & rest & e & Hfirst & He & Hexp)].
    + rewrite Hnone. repeat split.
    + rewrite Hfirst. unfold SharedConceptPage.after_query. simpl.
      rewrite He, Hexp. repeat split.
  - intros b rest e Hfirst He _. unfold select_batches_containing.
    rewrite Hsel, Hfirst. split; [reflexivity | exact He].
  - intros c rest e Hfirst _ _. unfold select_concepts_containing.
    rewrite Hsel, Hfirst. reflexivity.
Qed.

(** The expired link [share-T], opened at time 1001. *)
Lemma failed_resolution_keeps_no_state_witness :
  SharedBriefPage.batch (batch_page (Sample.env 1001) "share-T" Sample.world)
  = None
  ∧ SharedConceptPage.concept
      (concept_page (Sample.env 1001) "share-T" Sample.world) = None
  ∧ Postgrest.data
      (select_batches_containing "share-T" None Sample.world).1
    = Some [join_brand (brands Sample.world) Sample.summer].
Proof.
  split; [|split].
  - apply (proj1 (failed_resolution_keeps_no_state (Sample.env 1001) "share-T"
                    Sample.world eq_refl)).
    right. exists Sample.summer, [], Sample.settings_T.
    repeat split; vm_compute; reflexivity.
  - apply (proj1 (proj2 (failed_resolution_keeps_no_state (Sample.env 1001)
                           "share-T" Sample.world eq_refl))).
    right. exists Sample.teaser, [], Sample.settings_T.
    repeat split; vm_compute; reflexivity.
  - apply (proj1 (proj2 (proj2 (failed_resolution_keeps_no_state
                                  (Sample.env 1001) "share-T" Sample.world
                                  eq_refl)))
             Sample.summer [] Sample.settings_T);
      vm_compute; reflexivity.
Defined.

(** X19.  The brand shown with a resolved batch is the brand row the
    batch points to: it is a row of the brands table whose id is the
    batch's [brand_id].  When no such row is returned the batch is shown
    all the same, without a brand. *)
Theorem resolved_batch_brand env shareId w b rest e :
  select_fault env = None →
  concepts_fault env = None →
  batches_containing shareId w = b :: rest →
  share_settings_at shareId (BriefBatch.share_settings b) = Some e →
  has_expired env e = false →
  (∀ br, SharedBriefPage.brand (batch_page env shareId w) = Some br →
         In br (brands w) ∧ Brand.id br = BriefBatch.brand_id b)
  ∧ (Forall (fun x => Brand.id x ≠ BriefBatch.brand_id b) (brands w) →
     SharedBriefPage.brand (batch_page env shareId w) = None
     ∧ SharedBriefPage.render (batch_page env shareId w) = Content)
  ∧ (∀ br, In br (brands w) → Brand.id br = BriefBatch.brand_id b →
           ∃ br', SharedBriefPage.brand (batch_page env shareId w) = Some br'
                  ∧ Brand.id br' = BriefBatch.brand_id b).
Proof.
  intros Hsel Hcon Hfirst He Hlive.
  assert (Hbrand :
    SharedBriefPage.brand (batch_page env shareId w)
    = List.find (fun x => String.eqb (Brand.id x) (BriefBatch.brand_id b))
        (brands w)).
  { unfold batch_page.
    rewrite (fetchSharedBatch_answered _ _ _ _ Hsel), Hfirst.
    unfold SharedBriefPage.after_query, select_concepts_of_batch. simpl.
    rewrite He, Hlive, Hcon. simpl.
    destruct (find _ (brands w)); reflexivity. }
  rewrite Hbrand. split; [|split].
  - intros br Hbr. apply find_some in Hbr as [Hin Hid].
    apply String.eqb_eq in Hid. auto.
  - intros Hnone. split.
    + destruct (find _ (brands w)) as [br|] eqn:Hf; [|reflexivity].
      apply find_some in Hf as [Hin Hid]. apply String.eqb_eq in Hid.
      rewrite Forall_forall in Hnone. destruct (Hnone br); auto.
      apply list_elem_of_In. exact Hin.
    + apply (batch_resolves env shareId w b rest e Hsel Hcon Hfirst He Hlive).
  - intros br Hin Hid.
    destruct (find (fun x => String.eqb (Brand.id x) (BriefBatch.brand_id b))
                (brands w)) as [br'|] eqn:Hf.
    + exists br'. split; [reflexivity|].
      apply find_some in Hf as [_ Hid']. apply String.eqb_eq, Hid'.
    + apply (find_none _ _ Hf) in Hin. apply String.eqb_neq in Hin.
      contradiction.
Qed.

(** The batch of link [share-A] is shown with brand Acme; the batch of
    link [share-X] points to a brand that is not there. *)
Lemma resolved_batch_brand_witness :
  (∃ br', SharedBriefPage.brand (batch_page (Sample.env 600) "share-A"
                                   Sample.world) = Some br'
          ∧ Brand.id br' = "brand-1")
  ∧ SharedBriefPage.brand (batch_page (Sample.env 600) "share-X" Odd.world)
    = None.
Proof.
  split.
  - apply (proj2 (proj2 (resolved_batch_brand (Sample.env 600) "share-A"
                           Sample.world Sample.spring [] Sample.settings_A
                           eq_refl eq_refl ltac:(vm_compute; reflexivity)
                           ltac:(vm_compute; reflexivity) eq_refl))
             Sample.acme).
    + left. reflexivity.
    + reflexivity.
  - apply (proj1 (proj2 (resolved_batch_brand (Sample.env 600) "share-X"
                           Odd.world Odd.autumn [] Odd.settings_X
                           eq_refl eq_refl ltac:(vm_compute; reflexivity)
                           ltac:(vm_compute; reflexivity) eq_refl))).
    constructor.
Defined.

(** X20.  Running the effect a second time under the same conditions
    (same identifier, clock and faults, tables as the first run left
    them) does not change what the page holds. *)
Theorem effect_is_idempotent env shareId w :
  (let r := SharedBriefPage.fetchSharedBatch env shareId w
              SharedBriefPage.initial in
   (SharedBriefPage.fetchSharedBatch env shareId r.1 r.2).2 = r.2)
  ∧ (let r := SharedConceptPage.fetchSharedConcept env shareId w
                SharedConceptPage.initial in
     (SharedConceptPage.fetchSharedConcept env shareId r.1 r.2).2 = r.2).
Proof.
  split.
  - unfold SharedBriefPage.fetchSharedBatch, select_batches_containing,
      batches_containing.
    destruct (select_fault env) as [err|]; simpl; [reflexivity|].
    destruct (List.filter _ (brief_batches w)) as [|b rest] eqn:Hrows; simpl.
    { rewrite Hrows. reflexivity. }
    destruct (share_settings_at shareId (BriefBatch.share_settings b))
      as [e|] eqn:He; simpl.
    2:{ rewrite Hrows. simpl. rewrite He. reflexivity. }
    destruct (has_expired env e) eqn:Hexp; simpl.
    { rewrite Hrows. simpl. rewrite He, Hexp. reflexivity. }
    unfold select_concepts_of_batch.
    destruct (concepts_fault env) as [err|] eqn:Hcon; simpl;
      rewrite Hrows; simpl; rewrite He, Hexp; simpl; rewrite ?Hcon; simpl;
      destruct (find _ (brands w)); reflexivity.
  - unfold SharedConceptPage.fetchSharedConcept, select_concepts_containing,
      concepts_containing.
    destruct (select_fault env) as [err|]; simpl; [reflexivity|].
    destruct (List.filter _ (brief_concepts w)) as [|c rest] eqn:Hrows; simpl.
    { rewrite Hrows. reflexivity. }
    destruct (share_settings_at shareId (BriefConcept.share_settings c))
      as [e|] eqn:He; simpl.
    2:{ rewrite Hrows. simpl. rewrite He. reflexivity. }
    destruct (has_expired env e) eqn:Hexp; simpl;
      rewrite Hrows; simpl; rewrite He, Hexp; reflexivity.
Qed.
